(** * Comfy-Spaces: the custom-node security scanner

    A shallow embedding of [scripts/scan_custom_node.py] and the
    properties of its issue model, its static rule engine, its sandbox
    supervisor and its orchestrator.

    Conventions of the embedding:
    - a Python [str] is a [string]; the text model is ASCII, so the
      character classes [\s], [\d], [\w] and [str.isdigit] classify the
      characters below 128 as Python does and reject the others;
    - a Python [int] is a [Z], an [Optional[int]] an [option Z];
    - a [dict] used as a lookup table is a [gmap], a [set] a [gset], a
      [dict] that is iterated an association list in insertion order;
    - what the standard library or a third-party package decides (the
      file system, [ast.parse], bandit, the spawned process) is an input
      of the model, shaped after the cases the code distinguishes. *)

From Stdlib Require Import String Ascii List ZArith Lia Bool.
From stdpp Require Import base option list gmap strings pretty.

Import ListNotations.
Set Warnings "-register-all".
Local Open Scope string_scope.
Local Open Scope list_scope.

(** ** Python string operations used by the scanner *)

Module Py.

Definition is_upper (c : ascii) : bool :=
  (65 <=? nat_of_ascii c)%nat && (nat_of_ascii c <=? 90)%nat.

Definition is_lower (c : ascii) : bool :=
  (97 <=? nat_of_ascii c)%nat && (nat_of_ascii c <=? 122)%nat.

(** [str.isdigit] on one character. *)
Definition isdigit (c : ascii) : bool :=
  (48 <=? nat_of_ascii c)%nat && (nat_of_ascii c <=? 57)%nat.

(** [str.isspace] on one character: the class behind [\s]. *)
Definition isspace (c : ascii) : bool :=
  let n := nat_of_ascii c in
  (n =? 32)%nat || ((9 <=? n)%nat && (n <=? 13)%nat)
  || ((28 <=? n)%nat && (n <=? 31)%nat).

(** The class behind [\w]. *)
Definition isword (c : ascii) : bool :=
  is_upper c || is_lower c || isdigit c || (nat_of_ascii c =? 95)%nat.

Definition lower_char (c : ascii) : ascii :=
  if is_upper c then ascii_of_nat (nat_of_ascii c + 32) else c.

Definition upper_char (c : ascii) : ascii :=
  if is_lower c then ascii_of_nat (nat_of_ascii c - 32) else c.

Fixpoint map_chars (f : ascii -> ascii) (s : string) : string :=
  match s with
  | EmptyString => EmptyString
  | String c s' => String (f c) (map_chars f s')
  end.

(** [s.lower()] and [s.upper()]. *)
Definition lower : string -> string := map_chars lower_char.
Definition upper : string -> string := map_chars upper_char.

(** [s.startswith(p)]. *)
Definition startswith (s p : string) : bool := String.prefix p s.

(** [needle in hay] on two strings. *)
Fixpoint contains (needle hay : string) : bool :=
  String.prefix needle hay ||
  match hay with
  | EmptyString => false
  | String _ hay' => contains needle hay'
  end.

(** [value in values] on a list of strings. *)
Definition mem (value : string) (values : list string) : bool :=
  existsb (String.eqb value) values.

(** [sep.join(values)]. *)
Definition join (sep : string) (values : list string) : string :=
  String.concat sep values.

(** [s.split(".")[0]]: the text before the first dot. *)
Fixpoint before_dot (s : string) : string :=
  match s with
  | EmptyString => EmptyString
  | String c s' => if Ascii.eqb c "." then EmptyString else String c (before_dot s')
  end.

Definition is_linebreak (c : ascii) : bool :=
  let n := nat_of_ascii c in
  ((10 <=? n)%nat && (n <=? 13)%nat) || ((28 <=? n)%nat && (n <=? 30)%nat).

(** [s.splitlines()]: the text is cut at every line boundary, a
    carriage return followed by a line feed is one boundary, and no
    empty last line is produced. [cur] is the line read so far,
    reversed. *)
Fixpoint splitlines_go (s : string) (cur : list ascii) : list string :=
  match s with
  | EmptyString =>
      match cur with
      | [] => []
      | _ => [string_of_list_ascii (rev cur)]
      end
  | String c s' =>
      if is_linebreak c then
        string_of_list_ascii (rev cur) ::
          match s' with
          | String d s'' =>
              if Ascii.eqb c "013" && Ascii.eqb d "010"
              then splitlines_go s'' []
              else splitlines_go s' []
          | EmptyString => splitlines_go s' []
          end
      else splitlines_go s' (c :: cur)
  end.

Definition splitlines (s : string) : list string := splitlines_go s [].

(** [str(n)] for an integer. *)
Definition str_of_int (n : Z) : string := pretty n.

End Py.

(** ** The regular expressions of Python's [re], as far as the catalog uses them

    A backtracking matcher with [re]'s priorities: alternatives are tried
    left to right, repetitions are greedy, and [search] returns the match
    at the leftmost position where one exists. *)

Module Re.

Inductive regex : Type :=
| Eps                                         (* the empty pattern *)
| Chr (p : ascii -> bool)                     (* one character of a class *)
| Cat (r1 r2 : regex)
| Alt (r1 r2 : regex)                         (* r1|r2 *)
| Rep (r : regex) (lo : nat) (hi : option nat) (* r{lo,hi}, greedy *)
| Group (n : nat) (r : regex)                 (* capturing group number n *)
| Bol                                         (* ^ *)
| Eol                                         (* $ *)
| WordB.                                      (* \b *)

(** A position in the subject: the character before it and the text
    after it. *)
Record cursor := Cursor { prev : option ascii; rest : string }.

Definition captures := list (nat * string).

Definition word_before (c : cursor) : bool :=
  match prev c with Some a => Py.isword a | None => false end.

Definition word_after (c : cursor) : bool :=
  match rest c with String a _ => Py.isword a | EmptyString => false end.

(** [$] without MULTILINE: the end, or just before a final line feed. *)
Definition at_eol (c : cursor) : bool :=
  match rest c with
  | EmptyString => true
  | String a EmptyString => Ascii.eqb a "010"
  | _ => false
  end.

(** The text between two positions of one subject. *)
Definition consumed (c c' : cursor) : string :=
  String.substring 0 (String.length (rest c) - String.length (rest c')) (rest c).

Fixpoint run {X : Type} (r : regex) (c : cursor) (g : captures)
    (k : cursor -> captures -> option X) : option X :=
  match r with
  | Eps => k c g
  | Chr p =>
      match rest c with
      | String a s => if p a then k (Cursor (Some a) s) g else None
      | EmptyString => None
      end
  | Cat r1 r2 => run r1 c g (fun c' g' => run r2 c' g' k)
  | Alt r1 r2 =>
      match run r1 c g k with
      | Some x => Some x
      | None => run r2 c g k
      end
  | Rep r' lo hi =>
      (fix loop (n lo : nat) (c : cursor) (g : captures) : option X :=
         match n with
         | O => if (lo =? 0)%nat then k c g else None
         | S n' =>
             match run r' c g (fun c' g' => loop n' (Nat.pred lo) c' g') with
             | Some x => Some x
             | None => if (lo =? 0)%nat then k c g else None
             end
         end)
        (match hi with
         | Some h => h
         | None => Nat.max lo (String.length (rest c))
         end) lo c g
  | Group n r' => run r' c g (fun c' g' => k c' ((n, consumed c c') :: g'))
  | Bol => match prev c with None => k c g | Some _ => None end
  | Eol => if at_eol c then k c g else None
  | WordB => if xorb (word_before c) (word_after c) then k c g else None
  end.

(** A match object: [group(0)] and the numbered groups. *)
Record match_object := Match { group0 : string; groups : captures }.

Definition group (m : match_object) (n : nat) : option string :=
  snd <$> List.find (fun e => (fst e =? n)%nat) (groups m).

Definition match_at (r : regex) (c : cursor) : option match_object :=
  run r c [] (fun c' g => Some (Match (consumed c c') g)).

(** [pattern.match(s)]. *)
Definition match_ (r : regex) (s : string) : option match_object :=
  match_at r (Cursor None s).

Fixpoint search_from (r : regex) (p : option ascii) (s : string) : option match_object :=
  match match_at r (Cursor p s) with
  | Some m => Some m
  | None =>
      match s with
      | EmptyString => None
      | String a s' => search_from r (Some a) s'
      end
  end.

(** [pattern.search(s)]. *)
Definition search (r : regex) (s : string) : option match_object :=
  search_from r None s.

(** [m.group(0)] of a match result, when there is a match. *)
Definition matched (m : option match_object) : option string :=
  group0 <$> m.

(** Truth value of a match result, as in [if pattern.search(line):]. *)
Definition found (m : option match_object) : bool :=
  match m with Some _ => true | None => false end.

(** *** Pattern syntax *)

Definition opt (r : regex) : regex := Rep r 0 (Some 1).
Definition star (r : regex) : regex := Rep r 0 None.
Definition plus (r : regex) : regex := Rep r 1 None.

Definition char_is (a : ascii) : regex := Chr (Ascii.eqb a).

(** A character under IGNORECASE. *)
Definition char_ci (a : ascii) : regex :=
  Chr (fun b => Ascii.eqb (Py.lower_char b) (Py.lower_char a)).

Fixpoint lit_with (f : ascii -> regex) (s : string) : regex :=
  match s with
  | EmptyString => Eps
  | String a EmptyString => f a
  | String a s' => Cat (f a) (lit_with f s')
  end.

(** A literal text, case-sensitive and under IGNORECASE. *)
Definition lit : string -> regex := lit_with char_is.
Definition lit_ci : string -> regex := lit_with char_ci.

Fixpoint seq (rs : list regex) : regex :=
  match rs with
  | [] => Eps
  | [r] => r
  | r :: rs' => Cat r (seq rs')
  end.

Fixpoint alts (rs : list regex) : regex :=
  match rs with
  | [] => Eps
  | [r] => r
  | r :: rs' => Alt r (alts rs')
  end.

Definition digit : regex := Chr Py.isdigit.     (* \d *)
Definition space : regex := Chr Py.isspace.     (* \s *)

End Re.

(** ** The issue model *)

Record Issue := mkIssue { severity : string; detail : string }.

#[global] Instance Issue_eq_dec : EqDecision Issue.
Proof. solve_decision. Defined.

Record ScanResult := mkScanResult {
  file : string;
  issues : list Issue;
  secure : bool
}.

(** ** The signature catalog *)

Definition DYNAMIC_TIMEOUT_SECONDS : Z := 5.

(** [https?://] followed by one or more characters that are neither
    white space nor a quote, a double quote, a backslash or a closing
    parenthesis; IGNORECASE *)
Definition URL_RE : Re.regex :=
  Re.seq [Re.lit_ci "http"; Re.opt (Re.char_ci "s"); Re.lit_ci "://";
          Re.plus (Re.Chr (fun c =>
            negb (Py.isspace c || Ascii.eqb c "'" || Ascii.eqb c "034"
                  || Ascii.eqb c "\" || Ascii.eqb c ")")))].

(** [\b(?:\d{1,3}\.){3}\d{1,3}\b] *)
Definition IP_RE : Re.regex :=
  Re.seq [Re.WordB;
          Re.Rep (Re.Cat (Re.Rep Re.digit 1 (Some 3)) (Re.char_is ".")) 3 (Some 3);
          Re.Rep Re.digit 1 (Some 3);
          Re.WordB].

(** [(?:[A-Za-z0-9+/]{200,}={0,2})] *)
Definition BASE64_RE : Re.regex :=
  Re.Cat
    (Re.Rep (Re.Chr (fun c =>
       Py.is_upper c || Py.is_lower c || Py.isdigit c
       || Ascii.eqb c "+" || Ascii.eqb c "/")) 200 None)
    (Re.Rep (Re.char_is "=") 0 (Some 2)).

(** [^[ \t]*([A-Za-z_][A-Za-z0-9_]{29,})\s*=] *)
Definition OBFUSCATED_VAR_RE : Re.regex :=
  Re.seq [Re.Bol;
          Re.star (Re.Chr (fun c => Ascii.eqb c " " || Ascii.eqb c "009"));
          Re.Group 1
            (Re.Cat
               (Re.Chr (fun c => Py.is_upper c || Py.is_lower c || Ascii.eqb c "_"))
               (Re.Rep (Re.Chr (fun c =>
                  Py.is_upper c || Py.is_lower c || Py.isdigit c
                  || Ascii.eqb c "_")) 29 None));
          Re.star Re.space;
          Re.char_is "="].

(** [\bpip3?\s+install\b], IGNORECASE *)
Definition PIP_INSTALL_RE : Re.regex :=
  Re.seq [Re.WordB; Re.lit_ci "pip"; Re.opt (Re.char_ci "3");
          Re.plus Re.space; Re.lit_ci "install"; Re.WordB].

(** [^pip\d*$], IGNORECASE *)
Definition PIP_ARGS_RE : Re.regex :=
  Re.seq [Re.Bol; Re.lit_ci "pip"; Re.star Re.digit; Re.Eol].

Definition RISKY_IMPORTS : gmap string string :=
  list_to_map
    [("os", "LOW");
     ("subprocess", "MEDIUM");
     ("socket", "MEDIUM");
     ("winreg", "MEDIUM");
     ("ctypes", "MEDIUM");
     ("requests", "LOW");
     ("urllib", "LOW")].

Definition DANGEROUS_CALLS : gmap string (string * string) :=
  list_to_map
    [("eval", ("HIGH", "Uses eval() for dynamic code execution."));
     ("exec", ("HIGH", "Uses exec() for dynamic code execution."));
     ("os.system", ("HIGH", "Uses os.system() to execute shell commands."));
     ("subprocess.Popen", ("HIGH", "Uses subprocess.Popen() to spawn a process."));
     ("subprocess.run", ("MEDIUM", "Uses subprocess.run() to execute a process."));
     ("subprocess.call", ("MEDIUM", "Uses subprocess.call() to execute a process."))].

Definition NETWORK_CALL_PREFIXES : gset string :=
  list_to_set
    ["requests.get";
     "requests.post";
     "requests.put";
     "requests.delete";
     "requests.request";
     "urllib.request.urlopen";
     "urllib.urlopen"].

(** The three indicator patterns are compiled with IGNORECASE:
    [discord(app)?\.com/api/webhooks], [stratum\+tcp://] and
    [\b(nicehash|nanopool|...|slushpool)\b]. *)
Definition MALICIOUS_INDICATORS : list (Re.regex * string * string) :=
  [(Re.seq [Re.lit_ci "discord"; Re.opt (Re.Group 1 (Re.lit_ci "app"));
            Re.lit_ci ".com/api/webhooks"],
    "HIGH", "Discord webhook URL found.");
   (Re.lit_ci "stratum+tcp://",
    "HIGH", "Possible mining pool (stratum) URL found.");
   (Re.seq [Re.WordB;
            Re.Group 1 (Re.alts (List.map Re.lit_ci
              ["nicehash"; "nanopool"; "ethermine"; "minergate"; "supportxmr";
               "f2pool"; "2miners"; "viabtc"; "slushpool"]));
            Re.WordB],
    "HIGH", "Known crypto-mining pool reference found.")].

(** A callee name followed by [\s*\(], after a word boundary. *)
Definition call_pattern (callee : Re.regex) : Re.regex :=
  Re.seq [Re.WordB; callee; Re.star Re.space; Re.char_is "("].

(** The dict is iterated, so it is kept in insertion order. *)
Definition DANGEROUS_LINE_PATTERNS : list (Re.regex * (string * string)) :=
  [(call_pattern (Re.lit "eval"),
    ("HIGH", "Uses eval() for dynamic code execution."));
   (call_pattern (Re.lit "exec"),
    ("HIGH", "Uses exec() for dynamic code execution."));
   (call_pattern (Re.lit "os.system"),
    ("HIGH", "Uses os.system() to execute shell commands."));
   (call_pattern (Re.lit "subprocess.Popen"),
    ("HIGH", "Uses subprocess.Popen() to spawn a process."));
   (call_pattern (Re.Cat (Re.lit "subprocess.")
                         (Re.Group 1 (Re.Alt (Re.lit "run") (Re.lit "call")))),
    ("MEDIUM", "Uses subprocess to execute a process."))].

(** ** The syntax tree of [ast], as far as the scanner inspects it

    Every node class the scanner tests for is a constructor; every other
    class is [Other] with its child nodes in field order. Child nodes
    that have no children and that the scanner never inspects (expression
    contexts, operators, import aliases) are left out of the tree: they
    are visited by [ast.walk] and ignored. *)

Module Ast.

Inductive constant :=
| Str (s : string)        (* a constant whose value is a str *)
| NotStr.                 (* a number, bytes, None, True, False, ... *)

Inductive node : Type :=
| Name (id : string)
| Attribute (value : node) (attr : string)
| Constant (value : constant)
| JoinedStr (values : list node)
| List_ (elts : list node)
| Tuple (elts : list node)
| Set_ (elts : list node)
| Dict (keys : list (option node)) (values : list node)
| Call (func : node) (args : list node)
       (keywords : list (option string * node)) (lineno : Z)
| Import (names : list string) (lineno : Z)
| ImportFrom (module : option string) (lineno : Z)
| Other (children : list node).

(** [ast.iter_child_nodes]. A keyword argument is a node of its own
    whose child is its value; [None] keys of a dict display are not
    nodes. *)
Definition iter_child_nodes (n : node) : list node :=
  match n with
  | Name _ => []
  | Attribute value _ => [value]
  | Constant _ => []
  | JoinedStr values => values
  | List_ elts | Tuple elts | Set_ elts => elts
  | Dict keys values => omap id keys ++ values
  | Call func args keywords _ =>
      func :: args ++ List.map (fun kw => Other [snd kw]) keywords
  | Import _ _ => []
  | ImportFrom _ _ => []
  | Other children => children
  end.

(** The number of nodes [ast.walk] visits below and including [n]. *)
Fixpoint size (n : node) : nat :=
  match n with
  | Name _ | Constant _ | Import _ _ | ImportFrom _ _ => 1
  | Attribute value _ => S (size value)
  | JoinedStr l | List_ l | Tuple l | Set_ l | Other l =>
      S (list_sum (List.map size l))
  | Dict keys values =>
      S (list_sum (List.map (fun k => match k with
                                       | Some k' => size k'
                                       | None => 0
                                       end) keys)
         + list_sum (List.map size values))
  | Call func args keywords _ =>
      S (size func + list_sum (List.map size args)
         + list_sum (List.map (fun kw => match kw with
                                         | (_, v) => S (size v)
                                         end) keywords))
  end.

(** The number of nodes still to visit, given the queue. *)
Definition total_size (todo : list node) : nat := list_sum (List.map size todo).

(** [ast.walk]: breadth first, by a queue of nodes still to visit. *)
Fixpoint walk_queue (fuel : nat) (todo : list node) : list node :=
  match fuel, todo with
  | S fuel', n :: todo' => n :: walk_queue fuel' (todo' ++ iter_child_nodes n)
  | _, _ => []
  end.

Definition walk (tree : node) : list node := walk_queue (size tree) [tree].

(** What [ast.parse] does with a source text: a tree, a [SyntaxError]
    with its [msg] and [lineno], or another exception. *)
Inductive parse_outcome :=
| Parsed (tree : node)
| SyntaxError (msg : string) (lineno : option Z)
| ParseRaised (exc : string).

End Ast.

(** ** Results of fallible code *)

Inductive result (A : Type) : Type :=
| Ok (a : A)
| Raised (exc : string).

Arguments Ok {A} a.
Arguments Raised {A} exc.

(** ** What the scanner asks of its host *)

(** A finding of bandit, with the attributes [_run_bandit] reads. *)
Record bandit_issue := mkBanditIssue {
  test_id : string;
  text : string;
  b_lineno : option Z;
  b_severity : string
}.

(** What happens in [_run_bandit]: the import of bandit raises, or the
    manager runs and the loop over its issue list normalizes [found]
    before it ends, normally or by an exception ([failure]). *)
Inductive bandit_outcome :=
| BanditImportFails (exc : string)
| BanditRuns (found : list bandit_issue) (failure : option string).

(** What [open(...).read()] does: the decoded text, or an [OSError]. *)
Inductive read_outcome :=
| ReadOk (source : string)
| ReadOSError (exc : string).

Module Sandbox.

(** The standard-library entry points the worker replaces. *)
Inductive network_api :=
| urllib_request_urlopen
| requests_get
| requests_post
| requests_put
| requests_delete
| requests_request.

Definition network_name (api : network_api) : string :=
  match api with
  | urllib_request_urlopen => "urllib.request.urlopen"
  | requests_get => "requests.get"
  | requests_post => "requests.post"
  | requests_put => "requests.put"
  | requests_delete => "requests.delete"
  | requests_request => "requests.request"
  end.

(** A call of the scanned module that lands in an interceptor. [args]
    and [kwargs] are the texts Python prints for the argument tuple and
    the keyword dict. For the network interceptors [first_arg] is the
    text of [args[0]] and [url] the text of [kwargs.get("url")], each
    [None] when the value is absent or is [None]. *)
Inductive intercepted :=
| os_system (args kwargs : string)
| socket_create_connection (args kwargs : string)
| subprocess_Popen (args kwargs : string)
| subprocess_run (args kwargs : string)
| subprocess_call (args kwargs : string)
| network (api : network_api) (first_arg url : option string)
| Session_request (method url : string)
| Session_get (url : string)
| Session_post (url : string)
| socket_socket (args kwargs : string)
| socket_connect (args kwargs : string)
| socket_send (args kwargs : string)
| socket_recv (args kwargs : string).

(** An exception the module's top-level code lets escape. Evaluating
    [str(exc)] runs the exception's own code: [message] is [None] when
    that raises. *)
Record py_exception := mkException {
  class_name : string;          (* exc.__class__.__name__ *)
  message : option string;      (* str(exc) *)
  is_Exception : bool           (* isinstance(exc, Exception) *)
}.

Inductive outcome :=
| Returns
| Raises (exc : py_exception).

(** One step of the module's top-level code under the interceptors.
    The module runs in the worker process and can reach the worker's
    [log] and [queue] through the closure of an interceptor, so it can
    also put a record of its own making. *)
Inductive step :=
| Intercepted (c : intercepted)
| Put (record : Issue)          (* log(severity, detail) called by the module *)
| Tick                          (* anything else *)
| Finish (o : outcome).

(** What the module's code can observe of the worker process it runs
    in: the name it is imported under, and the state of the process
    that differs from one worker to the next (the hash seed behind the
    text of a set or dict argument, the process id, the clock). *)
Record process_env := mkEnv {
  module_name : string;
  process_seed : Z
}.

(** The top-level code of a module, as a function of the process it
    runs in: its steps, numbered from zero; the steps after the first
    [Finish] are never reached. *)
Definition module_code := process_env -> nat -> step.

End Sandbox.

Record Host := mkHost {
  abspath : string -> string;                       (* os.path.abspath *)
  isfile : string -> bool;                          (* os.path.isfile *)
  read_text : string -> read_outcome;               (* open and read *)
  ast_parse : string -> string -> Ast.parse_outcome; (* source, filename *)
  bandit : string -> bandit_outcome;
  (** [spec_from_file_location] and the loader: the code of the file at
      a path, [None] when no spec or loader is found for it. *)
  module_at : string -> option Sandbox.module_code
}.

(** What differs between two runs on one host:
    - the random module name suffix and the per-process state;
    - how many steps of the module's top-level code fit in the time
      budget of [DYNAMIC_TIMEOUT_SECONDS];
    - whether the worker process outlives its code ([lingers]: a thread
      the module started, a flush of the queue that blocks on a full
      pipe);
    - how many of the records the worker has put the supervisor can
      still get ([delivered], [None] for all of them): a record put is
      first held by the queue's feeder thread in the worker, and is lost
      when the worker is terminated, or leaves by [os._exit], before
      that thread has written it to the pipe. *)
Record Run := mkRunOf {
  uuid4_hex : string;
  seed : Z;
  steps_in_budget : nat;
  lingers : bool;
  delivered : option nat
}.

(** A run in which the worker exits with its code and every record put
    is delivered. *)
Definition mkRun (uuid4_hex : string) (steps_in_budget : nat) : Run :=
  mkRunOf uuid4_hex 0 steps_in_budget false None.

(** ** The static rule engine *)

Module Static.

(** The local state of [_static_scan]: the list [issues] and the set
    [seen] of the keys already emitted. *)
Record state := mkState {
  st_issues : list Issue;
  st_seen : gset (string * string)
}.

Definition initial : state := mkState [] ∅.

(** The detail with its line suffix, when a line is given. *)
Definition with_line (detail : string) (line : option Z) : string :=
  match line with
  | Some n => detail +:+ " (line " +:+ Py.str_of_int n +:+ ")"
  | None => detail
  end.

Definition add_issue (severity detail : string) (line : option Z)
    (st : state) : state :=
  let detail := with_line detail line in
  let key := (severity, detail) in
  if bool_decide (key ∈ st_seen st) then st
  else mkState (st_issues st ++ [mkIssue severity detail])
               ({[ key ]} ∪ st_seen st).

Definition nonempty (s : string) : bool := negb (String.eqb s "").

Fixpoint _full_name (node : Ast.node) : string :=
  match node with
  | Ast.Name id => id
  | Ast.Attribute value attr =>
      let base := _full_name value in
      if nonempty base then base +:+ "." +:+ attr else attr
  | _ => ""
  end.

Fixpoint _extract_string_literals (node : Ast.node) : list string :=
  match node with
  | Ast.Constant (Ast.Str value) => [value]
  | Ast.JoinedStr values =>
      flat_map (fun part =>
                  match part with
                  | Ast.Constant (Ast.Str value) => [value]
                  | _ => []
                  end) values
  | Ast.List_ elts | Ast.Tuple elts | Ast.Set_ elts =>
      flat_map _extract_string_literals elts
  | Ast.Dict keys values =>
      (* for key, value in zip(node.keys, node.values) *)
      flat_map (fun kv => fst kv ++ snd kv)
        (combine
           (List.map (fun key => match key with
                                 | Some k => _extract_string_literals k
                                 | None => []
                                 end) keys)
           (List.map _extract_string_literals values))
  | Ast.Call _ args keywords _ =>
      flat_map _extract_string_literals args
      ++ flat_map (fun kw => match kw with
                             | (_, value) => _extract_string_literals value
                             end) keywords
  | _ => []
  end.

Definition _extract_urls_from_call (node : Ast.node) : list string :=
  List.filter (fun value => Re.found (Re.search URL_RE value)
                            || Re.found (Re.search IP_RE value))
              (_extract_string_literals node).

Definition _call_invokes_pip (node : Ast.node) : bool :=
  let values := List.map Py.lower (_extract_string_literals node) in
  if Py.contains "pip install" (Py.join " " values) then true
  else if existsb (fun value => Re.found (Re.match_ PIP_ARGS_RE value)) values
          && Py.mem "install" values then true
  else false.

Definition import_detail (module : string) : string :=
  "Imports risky module '" +:+ module +:+ "'.".

(** The check of one imported module name. *)
Definition check_import (name : string) (lineno : Z) (st : state) : state :=
  let module := Py.before_dot name in
  match RISKY_IMPORTS !! module with
  | Some severity =>
      if nonempty severity
      then add_issue severity (import_detail module) (Some lineno) st
      else st
  | None => st
  end.

Definition spawning_calls : list string :=
  ["subprocess.run"; "subprocess.call"; "subprocess.Popen"; "os.system"].

(** The body of the loop over [ast.walk(tree)]. *)
Definition visit (node : Ast.node) (st : state) : state :=
  match node with
  | Ast.Import names lineno =>
      fold_left (fun st alias => check_import alias lineno st) names st
  | Ast.ImportFrom module lineno =>
      match module with
      | Some m => if nonempty m then check_import m lineno st else st
      | None => st
      end
  | Ast.Call func _ _ lineno =>
      let call_name := _full_name func in
      let st :=
        match DANGEROUS_CALLS !! call_name with
        | Some (severity, message) => add_issue severity message (Some lineno) st
        | None => st
        end in
      let st :=
        if bool_decide (call_name ∈ NETWORK_CALL_PREFIXES)
           || Py.startswith call_name "urllib."
        then
          let st := add_issue "MEDIUM" ("Network call via '" +:+ call_name +:+ "'.")
                              (Some lineno) st in
          fold_left (fun st url =>
                       add_issue "MEDIUM"
                         ("Network call target appears in code: " +:+ url +:+ ".")
                         (Some lineno) st)
                    (_extract_urls_from_call node) st
        else st in
      if Py.mem call_name spawning_calls then
        if _call_invokes_pip node
        then add_issue "HIGH" "Invokes pip install at runtime." (Some lineno) st
        else st
      else st
  | _ => st
  end.

Definition tree_walk (tree : Ast.node) (st : state) : state :=
  fold_left (fun st node => visit node st) (Ast.walk tree) st.

(** The body of the loop over the lines, for line number [idx]. *)
Definition scan_line (idx : Z) (line : string) (st : state) : state :=
  let st :=
    if Re.found (Re.search PIP_INSTALL_RE line)
    then add_issue "HIGH" "Contains 'pip install' invocation string." (Some idx) st
    else st in
  let st :=
    if Re.found (Re.search BASE64_RE line)
    then add_issue "MEDIUM" "Large base64-like string found (possible obfuscation)."
                   (Some idx) st
    else st in
  let st :=
    match Re.search OBFUSCATED_VAR_RE line with
    | Some obfuscated_match =>
        if existsb Py.isdigit
             (list_ascii_of_string (default "" (Re.group obfuscated_match 1)))
        then add_issue "LOW"
               "Unusually long variable name with digits (possible obfuscation)."
               (Some idx) st
        else st
    | None => st
    end in
  let st :=
    fold_left (fun st entry =>
                 match entry with
                 | (pattern, severity, message) =>
                     if Re.found (Re.search pattern line)
                     then add_issue severity message (Some idx) st
                     else st
                 end) MALICIOUS_INDICATORS st in
  let st :=
    if Py.contains "requests." line || Py.contains "urllib" line then
      let url_match := Re.search URL_RE line in
      let ip_match := Re.search IP_RE line in
      let st :=
        match url_match with
        | Some m => add_issue "MEDIUM"
                      ("Hard-coded URL in network call: " +:+ Re.group0 m +:+ ".")
                      (Some idx) st
        | None => st
        end in
      match ip_match with
      | Some m => add_issue "MEDIUM"
                    ("Hard-coded IP in network call: " +:+ Re.group0 m +:+ ".")
                    (Some idx) st
      | None => st
      end
    else st in
  fold_left (fun st entry =>
               match entry with
               | (call_pattern, (severity, message)) =>
                   if Re.found (Re.search call_pattern line)
                   then add_issue severity message (Some idx) st
                   else st
               end) DANGEROUS_LINE_PATTERNS st.

(** [for idx, line in enumerate(lines, start=idx)]. *)
Fixpoint scan_lines (idx : Z) (lines : list string) (st : state) : state :=
  match lines with
  | [] => st
  | line :: lines' => scan_lines (idx + 1) lines' (scan_line idx line st)
  end.

Definition parse_failure_detail (msg : string) : string :=
  "Failed to parse Python AST: " +:+ msg.

Definition _static_scan (h : Host) (source node_path : string)
    : result (list Issue) :=
  let lines := Py.splitlines source in
  match ast_parse h source node_path with
  | Ast.ParseRaised exc => Raised exc
  | Ast.SyntaxError msg lineno =>
      let st := add_issue "MEDIUM" (parse_failure_detail msg) lineno initial in
      Ok (st_issues (scan_lines 1 lines st))
  | Ast.Parsed tree =>
      let st := tree_walk tree initial in
      Ok (st_issues (scan_lines 1 lines st))
  end.

End Static.

(** ** The external linter adapter *)

Definition truthy_int (n : option Z) : bool :=
  match n with
  | Some n => negb (n =? 0)%Z
  | None => false
  end.

Definition bandit_detail (issue : bandit_issue) : string :=
  let detail := "Bandit " +:+ test_id issue +:+ ": " +:+ text issue in
  if truthy_int (b_lineno issue)
  then detail +:+ " (line " +:+ Py.str_of_int (default 0%Z (b_lineno issue)) +:+ ")"
  else detail.

Definition _run_bandit (h : Host) (node_path : string) : list Issue :=
  match bandit h node_path with
  | BanditImportFails exc =>
      [mkIssue "LOW" ("Bandit scan skipped: " +:+ exc)]
  | BanditRuns found failure =>
      let issues :=
        List.map (fun issue => mkIssue (Py.upper (b_severity issue))
                                       (bandit_detail issue)) found in
      match failure with
      | Some exc => issues ++ [mkIssue "LOW" ("Bandit scan failed: " +:+ exc)]
      | None => issues
      end
  end.

(** ** The sandbox runtime *)

Module Dynamic.
Import Sandbox.

Definition TIMED_OUT : Issue :=
  mkIssue "HIGH" "Dynamic analysis timed out during module import.".

Definition blocked (name args kwargs : string) : string :=
  "Runtime call blocked: " +:+ name +:+ " args=" +:+ args
  +:+ " kwargs=" +:+ kwargs.

Definition blocked_network (name target : string) : string :=
  "Runtime network call blocked: " +:+ name +:+ " target=" +:+ target.

(** [str(value)] of a value that may be [None]. *)
Definition str_of (value : option string) : string := default "None" value.

(** The record an interceptor puts on the queue. *)
Definition log (c : intercepted) : Issue :=
  match c with
  | os_system args kwargs =>
      mkIssue "HIGH" (blocked "os.system" args kwargs)
  | socket_create_connection args kwargs =>
      mkIssue "HIGH" (blocked "socket.create_connection" args kwargs)
  | subprocess_Popen args kwargs =>
      mkIssue "HIGH" (blocked "subprocess.Popen" args kwargs)
  | subprocess_run args kwargs =>
      mkIssue "HIGH" (blocked "subprocess.run" args kwargs)
  | subprocess_call args kwargs =>
      mkIssue "HIGH" (blocked "subprocess.call" args kwargs)
  | network api first_arg url =>
      let target := first_arg in
      let target := match target with None => url | Some _ => target end in
      mkIssue "HIGH" (blocked_network (network_name api) (str_of target))
  | Session_request method url =>
      mkIssue "HIGH" (blocked_network ("requests.Session." +:+ method) url)
  | Session_get url =>
      mkIssue "HIGH" (blocked_network ("requests.Session." +:+ "get") url)
  | Session_post url =>
      mkIssue "HIGH" (blocked_network ("requests.Session." +:+ "post") url)
  | socket_socket args kwargs =>
      mkIssue "MEDIUM" ("Runtime socket created args=" +:+ args
                        +:+ " kwargs=" +:+ kwargs)
  | socket_connect args kwargs =>
      mkIssue "HIGH" ("Runtime socket connect blocked args=" +:+ args
                      +:+ " kwargs=" +:+ kwargs)
  | socket_send args kwargs =>
      mkIssue "MEDIUM" ("Runtime socket send blocked args=" +:+ args
                        +:+ " kwargs=" +:+ kwargs)
  | socket_recv args kwargs =>
      mkIssue "MEDIUM" ("Runtime socket recv blocked args=" +:+ args
                        +:+ " kwargs=" +:+ kwargs)
  end.

(** The record of the handler of [except Exception as exc], for the
    text [message] of [str(exc)]. *)
Definition import_raised (exc : py_exception) (message : string) : Issue :=
  mkIssue "LOW" ("Dynamic import raised " +:+ class_name exc +:+ ": "
                 +:+ message).

Definition NO_SPEC : Issue :=
  mkIssue "MEDIUM" "Dynamic analysis failed: unable to load module spec.".

(** [spec.loader.exec_module(module)] for at most [budget] steps from
    step [i]: the records put on the queue, and how the code ended if
    it did. *)
Fixpoint exec_module (code : nat -> step) (i budget : nat)
    : list Issue * option outcome :=
  match budget with
  | O => ([], None)
  | S budget' =>
      match code i with
      | Finish o => ([], Some o)
      | Tick => exec_module code (S i) budget'
      | Intercepted c =>
          let (queue, o) := exec_module code (S i) budget' in
          (log c :: queue, o)
      | Put record =>
          let (queue, o) := exec_module code (S i) budget' in
          (record :: queue, o)
      end
  end.

(** What the worker's own code does within the budget: the records it
    puts, in order, and whether it has come to its end. *)
Record worker := mkWorker {
  puts : list Issue;
  ended : bool
}.

(** The body of [_dynamic_import_worker] from [exec_module] on. The
    handler evaluates [str(exc)] for its record: when that raises, the
    new exception leaves the handler and nothing is put. *)
Definition worker_code (code : module_code) (r : Run) : worker :=
  let module_name := "scan_target_" +:+ uuid4_hex r in
  match exec_module (code (mkEnv module_name (seed r))) 0 (steps_in_budget r) with
  | (queue, None) => mkWorker queue false
  | (queue, Some Returns) => mkWorker queue true
  | (queue, Some (Raises exc)) =>
      if is_Exception exc then
        match message exc with
        | Some text => mkWorker (queue ++ [import_raised exc text]) true
        | None => mkWorker queue true
        end
      else mkWorker queue true
  end.

(** The records the supervisor can get, of those the worker has put. *)
Definition received (r : Run) (puts : list Issue) : list Issue :=
  match delivered r with
  | None => puts
  | Some n => take n puts
  end.

(** What the supervisor sees of the worker process once the budget is
    over. *)
Record process := mkProcess {
  queue : list Issue;      (* what [get_nowait] yields, oldest first *)
  is_alive : bool
}.

(** The worker process, as the supervisor finds it after
    [process.join(DYNAMIC_TIMEOUT_SECONDS)]. Without a module spec the
    worker puts one record and returns before any code of the file runs. *)
Definition _dynamic_import_worker (h : Host) (r : Run) (node_path : string)
    : process :=
  match module_at h node_path with
  | None => mkProcess [NO_SPEC] false
  | Some code =>
      let w := worker_code code r in
      mkProcess (received r (puts w)) (negb (ended w) || lingers r)
  end.

(** The loop over [queue.get_nowait()] until the queue is empty. *)
Fixpoint drain (queue : list Issue) (issues : list Issue) : list Issue :=
  match queue with
  | [] => issues
  | entry :: queue' => drain queue' (issues ++ [entry])
  end.

(** What the supervisor does to the worker process and its queue. *)
Inductive action :=
| start
| join (timeout : Z)
| terminate
| get_nowait.

(** [_run_dynamic_analysis], with the calls it makes on the process and
    the queue: one [get_nowait] for each record, and the one that finds
    the queue empty. *)
Definition supervise (h : Host) (r : Run) (node_path : string)
    : list action * list Issue :=
  let issues := [] in
  let process := _dynamic_import_worker h r node_path in
  let actions := [start; join DYNAMIC_TIMEOUT_SECONDS] in
  let (actions, issues) :=
    if is_alive process
    then (actions ++ [terminate; join 1], issues ++ [TIMED_OUT])
    else (actions, issues) in
  (actions ++ repeat get_nowait (S (length (queue process))),
   drain (queue process) issues).

Definition _run_dynamic_analysis (h : Host) (r : Run) (node_path : string)
    : list Issue :=
  snd (supervise h r node_path).

End Dynamic.

(** ** The orchestrator *)

Inductive engine := Linter | StaticRules | SandboxRuntime.

(** A computation that invokes engines: the engines invoked, in order,
    and the value or the exception it ends with. *)
Definition Scan (A : Type) : Type := list engine * result A.

Definition ret {A : Type} (a : A) : Scan A := ([], Ok a).

Definition bind {A B : Type} (m : Scan A) (f : A -> Scan B) : Scan B :=
  match m with
  | (t, Ok a) => let (t', b) := f a in (t ++ t', b)
  | (t, Raised exc) => (t, Raised exc)
  end.

Definition invoke {A : Type} (e : engine) (r : result A) : Scan A := ([e], r).

Notation "x <- m ;; k" := (bind m (fun x => k))
  (at level 100, m at next level, right associativity).

Definition is_high_or_medium (i : Issue) : bool :=
  Py.mem (severity i) ["HIGH"; "MEDIUM"].

Definition scan_custom_node (h : Host) (r : Run) (node_path : string)
    : Scan ScanResult :=
  let issues : list Issue := [] in
  let abs_path := abspath h node_path in
  if negb (isfile h abs_path) then
    ret (mkScanResult abs_path
           [mkIssue "HIGH" "Node path does not exist or is not a file."]
           false)
  else
    match read_text h abs_path with
    | ReadOSError exc =>
        ret (mkScanResult abs_path
               [mkIssue "HIGH" ("Failed to read file: " +:+ exc)]
               false)
    | ReadOk source =>
        found <- invoke Linter (Ok (_run_bandit h abs_path)) ;;
        let issues := issues ++ found in
        found <- invoke StaticRules (Static._static_scan h source abs_path) ;;
        let issues := issues ++ found in
        found <- invoke SandboxRuntime
                   (Ok (Dynamic._run_dynamic_analysis h r abs_path)) ;;
        let issues := issues ++ found in
        let secure := negb (existsb is_high_or_medium issues) in
        ret (mkScanResult abs_path issues secure)
    end.

(** ** The findings of the static engine, before deduplication

    Every emission site of [_static_scan] goes through [add_issue]. The
    engine is therefore described by the list of its findings, in
    emission order, and by what [add_issue] does with such a list. The
    definitions below list the findings of each loop body; that the loop
    bodies emit exactly these is proved further down. *)

Module Findings.
Import Static.

(** A finding before it is rendered: severity, message, line. *)
Definition finding : Type := string * string * option Z.

Definition render (f : finding) : Issue :=
  match f with
  | (severity, message, line) => mkIssue severity (with_line message line)
  end.

Definition emit (fs : list finding) (st : state) : state :=
  fold_left (fun st f =>
               match f with
               | (severity, message, line) => add_issue severity message line st
               end) fs st.

(** The state invariant: [seen] holds the keys of [issues], and no
    issue is listed twice. *)
Definition consistent (st : state) : Prop :=
  NoDup (st_issues st) /\
  forall s d, (s, d) ∈ st_seen st <-> In (mkIssue s d) (st_issues st).

Definition import_findings (name : string) (lineno : Z) : list finding :=
  let module := Py.before_dot name in
  match RISKY_IMPORTS !! module with
  | Some severity =>
      if nonempty severity
      then [(severity, import_detail module, Some lineno)]
      else []
  | None => []
  end.

Definition visit_findings (node : Ast.node) : list finding :=
  match node with
  | Ast.Import names lineno =>
      flat_map (fun alias => import_findings alias lineno) names
  | Ast.ImportFrom (Some m) lineno =>
      if nonempty m then import_findings m lineno else []
  | Ast.Call func _ _ lineno =>
      let call_name := _full_name func in
      match DANGEROUS_CALLS !! call_name with
      | Some (severity, message) => [(severity, message, Some lineno)]
      | None => []
      end
      ++ (if bool_decide (call_name ∈ NETWORK_CALL_PREFIXES)
             || Py.startswith call_name "urllib."
          then ("MEDIUM", "Network call via '" +:+ call_name +:+ "'.", Some lineno)
               :: List.map (fun url =>
                    ("MEDIUM",
                     "Network call target appears in code: " +:+ url +:+ ".",
                     Some lineno))
                  (_extract_urls_from_call node)
          else [])
      ++ (if Py.mem call_name spawning_calls && _call_invokes_pip node
          then [("HIGH", "Invokes pip install at runtime.", Some lineno)]
          else [])
  | _ => []
  end.

Definition tree_findings (tree : Ast.node) : list finding :=
  flat_map visit_findings (Ast.walk tree).

(** The messages of the line checks that fire on a line, in order. *)
Definition line_matches (line : string) : list (string * string) :=
  (if Re.found (Re.search PIP_INSTALL_RE line)
   then [("HIGH", "Contains 'pip install' invocation string.")] else [])
  ++ (if Re.found (Re.search BASE64_RE line)
      then [("MEDIUM", "Large base64-like string found (possible obfuscation).")]
      else [])
  ++ match Re.search OBFUSCATED_VAR_RE line with
     | Some obfuscated_match =>
         if existsb Py.isdigit
              (list_ascii_of_string (default "" (Re.group obfuscated_match 1)))
         then [("LOW",
                "Unusually long variable name with digits (possible obfuscation).")]
         else []
     | None => []
     end
  ++ flat_map (fun entry =>
                 match entry with
                 | (pattern, severity, message) =>
                     if Re.found (Re.search pattern line)
                     then [(severity, message)] else []
                 end) MALICIOUS_INDICATORS
  ++ (if Py.contains "requests." line || Py.contains "urllib" line then
        match Re.search URL_RE line with
        | Some m => [("MEDIUM",
                      "Hard-coded URL in network call: " +:+ Re.group0 m +:+ ".")]
        | None => []
        end
        ++ match Re.search IP_RE line with
           | Some m => [("MEDIUM",
                         "Hard-coded IP in network call: " +:+ Re.group0 m +:+ ".")]
           | None => []
           end
      else [])
  ++ flat_map (fun entry =>
                 match entry with
                 | (call_pattern, (severity, message)) =>
                     if Re.found (Re.search call_pattern line)
                     then [(severity, message)] else []
                 end) DANGEROUS_LINE_PATTERNS.

Definition line_findings (idx : Z) (line : string) : list finding :=
  List.map (fun sm => (fst sm, snd sm, Some idx)) (line_matches line).

Fixpoint lines_findings (idx : Z) (lines : list string) : list finding :=
  match lines with
  | [] => []
  | line :: lines' => line_findings idx line ++ lines_findings (idx + 1) lines'
  end.

(** All findings of one run of [_static_scan], in emission order. *)
Definition static_findings (h : Host) (source node_path : string)
    : list finding :=
  match ast_parse h source node_path with
  | Ast.Parsed tree => tree_findings tree
  | Ast.SyntaxError msg lineno =>
      [("MEDIUM", parse_failure_detail msg, lineno)]
  | Ast.ParseRaised _ => []
  end
  ++ lines_findings 1 (Py.splitlines source).

(** An issue of the import check that names [module]. *)
Definition names_module (module : string) (i : Issue) : bool :=
  Py.startswith (detail i) (import_detail module).

(** The callee is an attribute chain that leads back to an identifier. *)
Fixpoint rooted (node : Ast.node) : bool :=
  match node with
  | Ast.Name _ => true
  | Ast.Attribute value _ => rooted value
  | _ => false
  end.

(** A finding that carries a line number. *)
Definition has_line (f : finding) : Prop := is_Some (snd f).

(** A detail that ends with the line suffix of [add_issue]. *)
Definition has_line_suffix (detail : string) : Prop :=
  exists body n, detail = body +:+ " (line " +:+ Py.str_of_int n +:+ ")".

Fixpoint last_char (s : string) : option ascii :=
  match s with
  | EmptyString => None
  | String c EmptyString => Some c
  | String _ s' => last_char s'
  end.

End Findings.

(** ** Sample hosts

    Small files and what a host makes of them, used to run the scanner
    on concrete inputs. Every sample host knows one file, [node.py] in
    the directory [/nodes], which is also the working directory, and has
    no bandit installed. *)

Module Samples.
Import Sandbox.

Definition nl : string := String "010" EmptyString.

Definition sample_abspath (path : string) : string :=
  if Py.startswith path "/" then path else "/nodes/" +:+ path.

Definition sample_host (source : string) (parsed : Ast.parse_outcome)
    (code : module_code) : Host :=
  mkHost sample_abspath
         (String.eqb "/nodes/node.py")
         (fun _ => ReadOk source)
         (fun _ _ => parsed)
         (fun _ => BanditImportFails "No module named 'bandit'")
         (fun _ => Some code).

Definition uuid_a : string := "3f2b8c1e9d4a4f6b8a7c5e0d1b2a3c4d".

Definition run_a : Run := mkRun uuid_a 1000.

(** A module whose top-level code ends at once: nothing intercepted. *)
Definition returns_at_once : module_code := fun _ _ => Finish Returns.

(** [import socket] *)
Definition import_socket : Host :=
  sample_host ("import socket" +:+ nl)
              (Ast.Parsed (Ast.Other [Ast.Import ["socket"] 1]))
              returns_at_once.

(** [import socket], twice, on two lines *)
Definition import_socket_twice : Host :=
  sample_host ("import socket" +:+ nl +:+ "import socket" +:+ nl)
              (Ast.Parsed (Ast.Other [Ast.Import ["socket"] 1;
                                      Ast.Import ["socket"] 2]))
              returns_at_once.

(** [import os, os.path]: one line, the module [os] named twice *)
Definition import_os_same_line : Host :=
  sample_host ("import os, os.path" +:+ nl)
              (Ast.Parsed (Ast.Other [Ast.Import ["os"; "os.path"] 1]))
              returns_at_once.

(** The call [make().eval(code)]: the callee is the attribute [eval]
    of the value of another call. *)
Definition eval_on_call_result : Ast.node :=
  Ast.Call (Ast.Attribute (Ast.Call (Ast.Name "make") [] [] 1) "eval")
           [Ast.Name "code"] [] 1.

(** The call [handlers[0](code)]: the callee is a subscript. *)
Definition call_of_subscript : Ast.node :=
  Ast.Call (Ast.Other [Ast.Name "handlers"; Ast.Constant Ast.NotStr])
           [Ast.Name "code"] [] 1.

(** [def f(:], which the parser rejects on line 1; the line also holds
    a call of [eval]. *)
Definition broken_def : Host :=
  sample_host ("def f(: eval(x)" +:+ nl)
              (Ast.SyntaxError "invalid syntax" (Some 1%Z))
              returns_at_once.

(** A file with a null byte: the parser (of CPython 3.12 and later)
    rejects the text as a whole, and its [SyntaxError] has no line
    number. *)
Definition null_byte : Host :=
  sample_host ("x = 1" +:+ String "000" EmptyString +:+ nl)
              (Ast.SyntaxError "source code string cannot contain null bytes" None)
              returns_at_once.



(** [import os; os.system('id')] followed by [while True: pass] *)
Definition spin : Host :=
  sample_host ("import os" +:+ nl +:+ "os.system('id')" +:+ nl
               +:+ "while True: pass" +:+ nl)
              (Ast.Parsed (Ast.Other
                 [Ast.Import ["os"] 1;
                  Ast.Other [Ast.Call (Ast.Attribute (Ast.Name "os") "system")
                                      [Ast.Constant (Ast.Str "id")] [] 2];
                  Ast.Other [Ast.Constant Ast.NotStr; Ast.Other []]]))
              (fun _ i => match i with
                          | O => Intercepted (os_system "('id',)" "{}")
                          | _ => Tick
                          end).

End Samples.

(** ** Further notions and sample hosts *)

Module More.
Import Sandbox.

(** The severities of the issue model. *)
Definition valid_severity (s : string) : Prop :=
  s = "LOW" \/ s = "MEDIUM" \/ s = "HIGH".

(** The expression [base.a1.a2...], for the attribute names in order. *)
Definition attribute_chain (base : Ast.node) (attrs : list string) : Ast.node :=
  fold_left Ast.Attribute attrs base.

(** [import requests], then [requests.get] of a literal address *)
Definition fetch_literal : Host :=
  Samples.sample_host
    ("import requests" +:+ Samples.nl
     +:+ "requests.get('http://10.0.0.5/x')" +:+ Samples.nl)
    (Ast.Parsed (Ast.Other
       [Ast.Import ["requests"] 1;
        Ast.Other [Ast.Call (Ast.Attribute (Ast.Name "requests") "get")
                            [Ast.Constant (Ast.Str "http://10.0.0.5/x")] [] 2]]))
    (fun _ i => match i with
                | O => Intercepted (network requests_get (Some "http://10.0.0.5/x") None)
                | _ => Finish Returns
                end).

(** [import subprocess], then [subprocess.run] of pip, given as a list *)
Definition pip_by_list : Host :=
  Samples.sample_host
    ("import subprocess" +:+ Samples.nl
     +:+ "subprocess.run(['PIP', 'install', 'evil'])" +:+ Samples.nl)
    (Ast.Parsed (Ast.Other
       [Ast.Import ["subprocess"] 1;
        Ast.Other [Ast.Call (Ast.Attribute (Ast.Name "subprocess") "run")
                            [Ast.List_ [Ast.Constant (Ast.Str "PIP");
                                        Ast.Constant (Ast.Str "install");
                                        Ast.Constant (Ast.Str "evil")]] [] 2]]))
    (fun _ i => match i with
                | O => Intercepted (subprocess_run "(['PIP', 'install', 'evil'],)" "{}")
                | _ => Finish Returns
                end).

(** A file that exists and cannot be read. *)
Definition unreadable : Host :=
  mkHost Samples.sample_abspath
         (String.eqb "/nodes/node.py")
         (fun _ => ReadOSError "[Errno 13] Permission denied: '/nodes/node.py'")
         (fun _ _ => Ast.ParseRaised "unreachable")
         (fun _ => BanditImportFails "No module named 'bandit'")
         (fun _ => None).

(** A file for which no module spec is found. *)
Definition no_spec : Host :=
  mkHost Samples.sample_abspath
         (String.eqb "/nodes/node.py")
         (fun _ => ReadOk ("x = 1" +:+ Samples.nl))
         (fun _ _ => Ast.Parsed (Ast.Other [Ast.Other [Ast.Name "x";
                                                        Ast.Constant Ast.NotStr]]))
         (fun _ => BanditImportFails "No module named 'bandit'")
         (fun _ => None).

(** A file with a null byte, under a parser that raises [ValueError]
    for it (CPython before 3.12). *)
Definition null_byte_value_error : Host :=
  Samples.sample_host
    ("x = 1" +:+ String "000" EmptyString +:+ Samples.nl)
    (Ast.ParseRaised "source code string cannot contain null bytes")
    Samples.returns_at_once.



(** [raise Unprintable()], for an exception class whose [__str__]
    raises *)
Definition raise_unprintable : Host :=
  Samples.sample_host
    ("class Unprintable(Exception):" +:+ Samples.nl
     +:+ "    def __str__(self): raise ValueError()" +:+ Samples.nl
     +:+ "raise Unprintable()" +:+ Samples.nl)
    (Ast.Parsed (Ast.Other
       [Ast.Other [Ast.Name "Exception"; Ast.Other [Ast.Other [];
                     Ast.Other [Ast.Call (Ast.Name "ValueError") [] [] 2]]];
        Ast.Other [Ast.Call (Ast.Name "Unprintable") [] [] 3]]))
    (fun _ _ => Finish (Raises (mkException "Unprintable" None true))).

(** [import os; os.system({'a', 'b'})]: the text of the set argument
    follows the hash seed of the worker process. *)
Definition set_argument : Host :=
  Samples.sample_host
    ("import os" +:+ Samples.nl +:+ "os.system({'a', 'b'})" +:+ Samples.nl)
    (Ast.Parsed (Ast.Other
       [Ast.Import ["os"] 1;
        Ast.Other [Ast.Call (Ast.Attribute (Ast.Name "os") "system")
                            [Ast.Set_ [Ast.Constant (Ast.Str "a");
                                       Ast.Constant (Ast.Str "b")]] [] 2]]))
    (fun env i => match i with
                  | O => Intercepted
                           (os_system (if Z.even (process_seed env)
                                       then "({'a', 'b'},)" else "({'b', 'a'},)")
                                      "{}")
                  | _ => Finish Returns
                  end).


(** A file that calls [eval] and holds a null byte, under a parser that
    raises [ValueError] for it (CPython before 3.12). *)
Definition null_byte_with_eval : Host :=
  Samples.sample_host
    ("eval(x)" +:+ String "000" EmptyString +:+ Samples.nl)
    (Ast.ParseRaised "source code string cannot contain null bytes")
    Samples.returns_at_once.

End More.

(** * Properties *)

(** ** The catalog on concrete lines *)

Module CatalogExamples.

Example URL_RE_leftmost :
  Re.matched (Re.search URL_RE "x = requests.get('HTTPS://a.b/c?d=1') # http://z")
  = Some "HTTPS://a.b/c?d=1".
Proof. vm_compute. reflexivity. Qed.

Example URL_RE_needs_a_host : Re.matched (Re.search URL_RE "http://") = None.
Proof. vm_compute. reflexivity. Qed.

Example IP_RE_word_boundaries :
  Re.matched (Re.search IP_RE "ip 1234.1.1.1 and 10.0.0.5x 192.168.1.100.")
  = Some "192.168.1.100".
Proof. vm_compute. reflexivity. Qed.

Example PIP_INSTALL_RE_ignores_case :
  Re.matched (Re.search PIP_INSTALL_RE "os.system('PIP3   install x')")
  = Some "PIP3   install".
Proof. vm_compute. reflexivity. Qed.

Example PIP_INSTALL_RE_whole_words :
  Re.matched (Re.search PIP_INSTALL_RE "xpip install") = None
  /\ Re.matched (Re.search PIP_INSTALL_RE "pip installer") = None.
Proof. vm_compute. split; reflexivity. Qed.

Example PIP_ARGS_RE_to_the_end :
  Re.matched (Re.match_ PIP_ARGS_RE "pip3") = Some "pip3"
  /\ Re.matched (Re.match_ PIP_ARGS_RE "pipx") = None.
Proof. vm_compute. split; reflexivity. Qed.

Example OBFUSCATED_VAR_RE_group :
  (fun m => Re.group m 1)
    <$> Re.search OBFUSCATED_VAR_RE "   abcdefghijklmnopqrstuvwxyz0123456789  = 1"
  = Some (Some "abcdefghijklmnopqrstuvwxyz0123456789").
Proof. vm_compute. reflexivity. Qed.

Example BASE64_RE_threshold :
  String.length
    <$> Re.matched (Re.search BASE64_RE
                   ("x='" +:+ String.concat "" (repeat "A" 250) +:+ "=='"))
  = Some 252%nat
  /\ Re.matched (Re.search BASE64_RE
                ("x='" +:+ String.concat "" (repeat "A" 199) +:+ "=='"))
     = None.
Proof. vm_compute. split; reflexivity. Qed.

Example DANGEROUS_LINE_PATTERNS_on_a_line :
  List.map (fun entry => Re.matched (Re.search (fst entry)
              "eval (x); myexec(y); os.system  ('a'); subprocess.call(z)"))
           DANGEROUS_LINE_PATTERNS
  = [Some "eval ("; None; Some "os.system  ("; None; Some "subprocess.call("].
Proof. vm_compute. reflexivity. Qed.

Example splitlines_boundaries :
  Py.splitlines ("a" +:+ String "013" (String "010" "b")
                 +:+ String "010" (String "010" "c") +:+ String "010" "")
  = ["a"; "b"; ""; "c"].
Proof. vm_compute. reflexivity. Qed.

Example walk_breadth_first :
  Ast.walk (Ast.Other [Ast.Import ["socket"] 1;
                       Ast.Other [Samples.eval_on_call_result]])
  = [Ast.Other [Ast.Import ["socket"] 1; Ast.Other [Samples.eval_on_call_result]];
     Ast.Import ["socket"] 1;
     Ast.Other [Samples.eval_on_call_result];
     Samples.eval_on_call_result;
     Ast.Attribute (Ast.Call (Ast.Name "make") [] [] 1) "eval";
     Ast.Name "code";
     Ast.Call (Ast.Name "make") [] [] 1;
     Ast.Name "make"].
Proof. vm_compute. reflexivity. Qed.

End CatalogExamples.

(** ** Deduplicated emission *)

Module StaticFacts.
Import Static Findings.

Lemma initial_consistent : consistent initial.
Proof.
  split; [constructor|].
  intros s d. simpl. split; [set_solver | tauto].
Qed.

Lemma add_issue_seen s d l st :
  (s, with_line d l) ∈ st_seen st -> add_issue s d l st = st.
Proof.
  intros Hin. unfold add_issue. rewrite bool_decide_eq_true_2; auto.
Qed.

Lemma add_issue_fresh s d l st :
  (s, with_line d l) ∉ st_seen st ->
  add_issue s d l st =
  mkState (st_issues st ++ [mkIssue s (with_line d l)])
          ({[ (s, with_line d l) ]} ∪ st_seen st).
Proof.
  intros Hin. unfold add_issue. rewrite bool_decide_eq_false_2; auto.
Qed.

Lemma add_issue_consistent s d l st :
  consistent st -> consistent (add_issue s d l st).
Proof.
  intros [Hnd Hseen].
  destruct (decide ((s, with_line d l) ∈ st_seen st)) as [Hin|Hout].
  - rewrite add_issue_seen by assumption. split; assumption.
  - rewrite add_issue_fresh by assumption. split; simpl.
    + apply NoDup_app. repeat split.
      * assumption.
      * intros x Hx Hx'. apply list_elem_of_In in Hx, Hx'.
        destruct Hx' as [<-|[]]. apply Hout, Hseen, Hx.
      * apply NoDup_singleton.
    + intros s' d'. rewrite elem_of_union, elem_of_singleton, in_app_iff, Hseen.
      simpl. split.
      * intros [Heq|Hin]; [right; left; congruence | left; assumption].
      * intros [Hin|[Heq|[]]]; [right; assumption | left; congruence].
Qed.

Lemma add_issue_In s d l st i :
  consistent st ->
  In i (st_issues (add_issue s d l st)) <->
  In i (st_issues st) \/ i = mkIssue s (with_line d l).
Proof.
  intros [_ Hseen].
  destruct (decide ((s, with_line d l) ∈ st_seen st)) as [Hin|Hout].
  - rewrite add_issue_seen by assumption. split; [tauto|].
    intros [Hi| ->]; [assumption | apply Hseen, Hin].
  - rewrite add_issue_fresh by assumption. simpl.
    rewrite in_app_iff. simpl. intuition congruence.
Qed.

Lemma add_issue_extends s d l st :
  exists tail, st_issues (add_issue s d l st) = st_issues st ++ tail.
Proof.
  unfold add_issue. case_bool_decide; simpl.
  - exists []. symmetry. apply app_nil_r.
  - eexists. reflexivity.
Qed.

Lemma emit_app fs gs st : emit (fs ++ gs) st = emit gs (emit fs st).
Proof. apply fold_left_app. Qed.

Lemma emit_consistent fs st : consistent st -> consistent (emit fs st).
Proof.
  revert st. induction fs as [|[[s d] l] fs IH]; intros st Hst; simpl.
  - assumption.
  - apply IH, add_issue_consistent, Hst.
Qed.

Lemma emit_In fs st i :
  consistent st ->
  In i (st_issues (emit fs st)) <->
  In i (st_issues st) \/ In i (List.map render fs).
Proof.
  revert st. induction fs as [|[[s d] l] fs IH]; intros st Hst; simpl.
  - tauto.
  - rewrite IH by (apply add_issue_consistent, Hst).
    rewrite add_issue_In by assumption. intuition congruence.
Qed.

Lemma emit_extends fs st :
  exists tail, st_issues (emit fs st) = st_issues st ++ tail.
Proof.
  revert st. induction fs as [|[[s d] l] fs IH]; intros st; simpl.
  - exists []. symmetry. apply app_nil_r.
  - destruct (IH (add_issue s d l st)) as [t2 Ht2].
    destruct (add_issue_extends s d l st) as [t1 Ht1].
    exists (t1 ++ t2). rewrite Ht2, Ht1. symmetry. apply app_assoc.
Qed.

(** *** The loop bodies emit their findings *)

Lemma check_import_emit name lineno st :
  check_import name lineno st = emit (import_findings name lineno) st.
Proof.
  unfold check_import, import_findings.
  destruct (RISKY_IMPORTS !! Py.before_dot name) as [sev|]; [|reflexivity].
  destruct (nonempty sev); reflexivity.
Qed.

Lemma fold_check_import_emit names lineno st :
  fold_left (fun st alias => check_import alias lineno st) names st =
  emit (flat_map (fun alias => import_findings alias lineno) names) st.
Proof.
  revert st. induction names as [|a names IH]; intros st; simpl.
  - reflexivity.
  - rewrite emit_app, IH, check_import_emit. reflexivity.
Qed.

Lemma fold_urls_emit (lineno : Z) urls st :
  fold_left (fun st url =>
               add_issue "MEDIUM"
                 ("Network call target appears in code: " +:+ url +:+ ".")
                 (Some lineno) st) urls st =
  emit (List.map (fun url =>
          ("MEDIUM", "Network call target appears in code: " +:+ url +:+ ".",
           Some lineno)) urls) st.
Proof.
  revert st. induction urls as [|u urls IH]; intros st; simpl.
  - reflexivity.
  - apply IH.
Qed.

Lemma visit_emit node st : visit node st = emit (visit_findings node) st.
Proof.
  destruct node as [| | | | | | | |func args kws lineno|names lineno
                   |module lineno|]; try reflexivity.
  - unfold visit, visit_findings.
    rewrite !emit_app.
    set (call_name := _full_name func).
    assert (H1 : forall st,
      match DANGEROUS_CALLS !! call_name with
      | Some (severity, message) => add_issue severity message (Some lineno) st
      | None => st
      end = emit match DANGEROUS_CALLS !! call_name with
                 | Some (severity, message) => [(severity, message, Some lineno)]
                 | None => []
                 end st).
    { intros st'. destruct (DANGEROUS_CALLS !! call_name) as [[s m]|]; reflexivity. }
    rewrite H1. clear H1.
    set (st1 := emit _ st).
    destruct (bool_decide (call_name ∈ NETWORK_CALL_PREFIXES)
              || Py.startswith call_name "urllib.").
    + rewrite fold_urls_emit.
      destruct (Py.mem call_name spawning_calls); simpl;
        [destruct (_call_invokes_pip _)|]; reflexivity.
    + destruct (Py.mem call_name spawning_calls); simpl;
        [destruct (_call_invokes_pip _)|]; reflexivity.
  - simpl. apply fold_check_import_emit.
  - simpl. destruct module as [m|]; [|reflexivity].
    destruct (nonempty m); [apply check_import_emit | reflexivity].
Qed.

Lemma tree_walk_emit tree st : tree_walk tree st = emit (tree_findings tree) st.
Proof.
  unfold tree_walk, tree_findings.
  revert st. induction (Ast.walk tree) as [|n ns IH]; intros st; simpl.
  - reflexivity.
  - rewrite emit_app, IH, visit_emit. reflexivity.
Qed.

Lemma emit_line st (idx : Z) (sms : list (string * string)) :
  fold_left (fun st sm => add_issue (fst sm) (snd sm) (Some idx) st) sms st =
  emit (List.map (fun sm => (fst sm, snd sm, Some idx)) sms) st.
Proof.
  revert st. induction sms as [|[s m] sms IH]; intros st; simpl.
  - reflexivity.
  - apply IH.
Qed.

Lemma fold_indicators_emit (idx : Z) line table st :
  fold_left (fun st (entry : Re.regex * string * string) =>
               match entry with
               | (pattern, severity, message) =>
                   if Re.found (Re.search pattern line)
                   then add_issue severity message (Some idx) st
                   else st
               end) table st =
  fold_left (fun st sm => add_issue (fst sm) (snd sm) (Some idx) st)
    (flat_map (fun entry : Re.regex * string * string =>
                 match entry with
                 | (pattern, severity, message) =>
                     if Re.found (Re.search pattern line)
                     then [(severity, message)] else []
                 end) table) st.
Proof.
  revert st. induction table as [|[[p s] m] table IH]; intros st; simpl.
  - reflexivity.
  - rewrite fold_left_app, IH.
    destruct (Re.found (Re.search p line)); reflexivity.
Qed.

Lemma fold_patterns_emit (idx : Z) line table st :
  fold_left (fun st (entry : Re.regex * (string * string)) =>
               match entry with
               | (call_pattern, (severity, message)) =>
                   if Re.found (Re.search call_pattern line)
                   then add_issue severity message (Some idx) st
                   else st
               end) table st =
  fold_left (fun st sm => add_issue (fst sm) (snd sm) (Some idx) st)
    (flat_map (fun entry : Re.regex * (string * string) =>
                 match entry with
                 | (call_pattern, (severity, message)) =>
                     if Re.found (Re.search call_pattern line)
                     then [(severity, message)] else []
                 end) table) st.
Proof.
  revert st. induction table as [|[p [s m]] table IH]; intros st; simpl.
  - reflexivity.
  - rewrite fold_left_app, IH.
    destruct (Re.found (Re.search p line)); reflexivity.
Qed.

Lemma scan_line_emit idx line st :
  scan_line idx line st = emit (line_findings idx line) st.
Proof.
  unfold line_findings. rewrite <- emit_line.
  unfold scan_line, line_matches.
  rewrite !fold_left_app.
  rewrite fold_indicators_emit, fold_patterns_emit.
  destruct (Re.found (Re.search PIP_INSTALL_RE line));
    destruct (Re.found (Re.search BASE64_RE line));
    destruct (Re.search OBFUSCATED_VAR_RE line) as [om|];
    try destruct (existsb Py.isdigit _);
    destruct (Py.contains "requests." line || Py.contains "urllib" line);
    destruct (Re.search URL_RE line) as [um|];
    destruct (Re.search IP_RE line) as [im|];
    reflexivity.
Qed.

Lemma scan_lines_emit idx lines st :
  scan_lines idx lines st = emit (lines_findings idx lines) st.
Proof.
  revert idx st. induction lines as [|l lines IH]; intros idx st; simpl.
  - reflexivity.
  - rewrite emit_app, IH, scan_line_emit. reflexivity.
Qed.

Lemma visit_findings_line node : Forall has_line (visit_findings node).
Proof.
  assert (Himp : forall name lineno, Forall has_line (import_findings name lineno)).
  { intros name lineno. unfold import_findings.
    destruct (RISKY_IMPORTS !! Py.before_dot name) as [sev|]; [|constructor].
    destruct (nonempty sev); repeat constructor. eexists; reflexivity. }
  destruct node as [| | | | | | | |func args kws lineno|names lineno
                   |module lineno|]; try (simpl; constructor).
  - unfold visit_findings. rewrite !Forall_app. repeat split.
    + destruct (DANGEROUS_CALLS !! _) as [[s m]|]; repeat constructor.
      eexists; reflexivity.
    + destruct (_ || _); [|constructor].
      constructor; [eexists; reflexivity|].
      apply Forall_forall. intros f Hf. apply list_elem_of_In, in_map_iff in Hf.
      destruct Hf as [url [<- _]]. eexists; reflexivity.
    + destruct (_ && _); repeat constructor. eexists; reflexivity.
  - simpl. apply Forall_forall. intros f Hf.
    apply list_elem_of_In, in_flat_map in Hf. destruct Hf as [a [_ Hf]].
    specialize (Himp a lineno). rewrite Forall_forall in Himp.
    apply Himp, list_elem_of_In, Hf.
  - simpl. destruct module as [m|]; [|constructor].
    destruct (nonempty m); [apply Himp | constructor].
Qed.

Lemma tree_findings_line tree : Forall has_line (tree_findings tree).
Proof.
  unfold tree_findings. apply Forall_forall. intros f Hf.
  apply list_elem_of_In, in_flat_map in Hf. destruct Hf as [n [_ Hf]].
  pose proof (visit_findings_line n) as H. rewrite Forall_forall in H.
  apply H, list_elem_of_In, Hf.
Qed.

Lemma lines_findings_line idx lines : Forall has_line (lines_findings idx lines).
Proof.
  revert idx. induction lines as [|l lines IH]; intros idx; simpl.
  - constructor.
  - apply Forall_app. split; [|apply IH].
    unfold line_findings. apply Forall_forall. intros f Hf.
    apply list_elem_of_In, in_map_iff in Hf. destruct Hf as [sm [<- _]].
    eexists; reflexivity.
Qed.

Lemma lines_findings_In idx lines f :
  In f (lines_findings idx lines) <->
  exists (k : nat) line,
    lines !! k = Some line /\ In f (line_findings (idx + Z.of_nat k) line).
Proof.
  revert idx. induction lines as [|l lines IH]; intros idx; simpl.
  - split; [tauto|]. intros (k & line & Hk & _). rewrite lookup_nil in Hk.
    discriminate.
  - rewrite in_app_iff, IH. split.
    + intros [Hf|(k & line & Hk & Hf)].
      * exists 0%nat, l. split; [reflexivity|].
        replace (idx + Z.of_nat 0)%Z with idx by lia. assumption.
      * exists (S k), line. split; [assumption|].
        replace (idx + Z.of_nat (S k))%Z with (idx + 1 + Z.of_nat k)%Z by lia.
        assumption.
    + intros (k & line & Hk & Hf). destruct k as [|k]; simpl in Hk.
      * left. injection Hk as ->.
        replace (idx + Z.of_nat 0)%Z with idx in Hf by lia. assumption.
      * right. exists k, line. split; [assumption|].
        replace (idx + 1 + Z.of_nat k)%Z with (idx + Z.of_nat (S k))%Z by lia.
        assumption.
Qed.

Lemma render_has_line_suffix f : has_line f -> has_line_suffix (detail (render f)).
Proof.
  destruct f as [[s m] l]. intros [n Hn]. simpl in Hn. subst l.
  exists m, n. reflexivity.
Qed.

End StaticFacts.

(** ** The orchestrator and its verdict *)

Lemma is_high_or_medium_spec i :
  is_high_or_medium i = true <-> severity i = "MEDIUM" \/ severity i = "HIGH".
Proof.
  unfold is_high_or_medium, Py.mem. simpl.
  rewrite !orb_true_iff, !String.eqb_eq. intuition discriminate.
Qed.

Lemma verdict_spec found :
  negb (existsb is_high_or_medium found) = true <->
  forall i, In i found -> severity i <> "MEDIUM" /\ severity i <> "HIGH".
Proof.
  rewrite negb_true_iff. split.
  - intros Hex i Hi. split; intros Hs.
    + assert (existsb is_high_or_medium found = true) as Habs.
      { apply existsb_exists. exists i. split; [assumption|].
        apply is_high_or_medium_spec. left. assumption. }
      congruence.
    + assert (existsb is_high_or_medium found = true) as Habs.
      { apply existsb_exists. exists i. split; [assumption|].
        apply is_high_or_medium_spec. right. assumption. }
      congruence.
  - intros Hall. destruct (existsb is_high_or_medium found) eqn:Hex; [|reflexivity].
    apply existsb_exists in Hex. destruct Hex as [i [Hi Hs]].
    apply is_high_or_medium_spec in Hs. destruct (Hall i Hi). tauto.
Qed.

(** The three ways [scan_custom_node] ends with a result. *)
Lemma scan_custom_node_cases h r node_path t res :
  scan_custom_node h r node_path = (t, Ok res) ->
  let abs_path := abspath h node_path in
  (isfile h abs_path = false /\ t = [] /\
   res = mkScanResult abs_path
           [mkIssue "HIGH" "Node path does not exist or is not a file."] false)
  \/ (exists exc, isfile h abs_path = true /\
        read_text h abs_path = ReadOSError exc /\ t = [] /\
        res = mkScanResult abs_path
                [mkIssue "HIGH" ("Failed to read file: " +:+ exc)] false)
  \/ (exists source found,
        isfile h abs_path = true /\
        read_text h abs_path = ReadOk source /\
        Static._static_scan h source abs_path = Ok found /\
        t = [Linter; StaticRules; SandboxRuntime] /\
        let all := _run_bandit h abs_path ++ found
                   ++ Dynamic._run_dynamic_analysis h r abs_path in
        res = mkScanResult abs_path all (negb (existsb is_high_or_medium all))).
Proof.
  intros H abs_path. unfold scan_custom_node in H. fold abs_path in H.
  destruct (isfile h abs_path) eqn:Hfile; simpl in H.
  - destruct (read_text h abs_path) as [source|exc] eqn:Hread.
    + right. right.
      destruct (Static._static_scan h source abs_path) as [found|exc] eqn:Hst;
        simpl in H; [|discriminate].
      injection H as <- <-. exists source, found.
      repeat split; try assumption; try reflexivity.
      simpl. rewrite <- !app_assoc. reflexivity.
    + right. left. unfold ret in H. injection H as <- <-. exists exc. auto.
  - left. unfold ret in H. injection H as <- <-. auto.
Qed.

(** C1: in every result [scan_custom_node] returns, [secure] is true
    exactly when no issue of [issues] has severity MEDIUM or HIGH; so
    [secure] is false whenever [issues] holds a MEDIUM or HIGH entry. *)
Theorem secure_iff_no_medium_or_high h r node_path t res :
  scan_custom_node h r node_path = (t, Ok res) ->
  (secure res = true <->
   forall i, In i (issues res) -> severity i <> "MEDIUM" /\ severity i <> "HIGH")
  /\ ((exists i, In i (issues res)
                 /\ (severity i = "MEDIUM" \/ severity i = "HIGH"))
      -> secure res = false).
Proof.
  intros H.
  assert (Hiff : secure res = true <->
    forall i, In i (issues res) -> severity i <> "MEDIUM" /\ severity i <> "HIGH").
  { apply scan_custom_node_cases in H.
    destruct H as [(_ & _ & ->)|[(exc & _ & _ & _ & ->)|
                   (source & found & _ & _ & _ & _ & ->)]]; simpl.
    - split; [discriminate|]. intros Hall.
      destruct (Hall _ (or_introl eq_refl)) as [_ Hh]. simpl in Hh. congruence.
    - split; [discriminate|]. intros Hall.
      destruct (Hall _ (or_introl eq_refl)) as [_ Hh]. simpl in Hh. congruence.
    - apply verdict_spec. }
  split; [exact Hiff|].
  intros (i & Hi & Hs). destruct (secure res) eqn:Hsec; [|reflexivity].
  destruct Hiff as [Hall _]. destruct (Hall eq_refl i Hi). tauto.
Qed.

Lemma secure_iff_no_medium_or_high_witness :
  scan_custom_node Samples.import_socket Samples.run_a "node.py"
  = ([Linter; StaticRules; SandboxRuntime],
     Ok (mkScanResult "/nodes/node.py"
           [mkIssue "LOW" "Bandit scan skipped: No module named 'bandit'";
            mkIssue "MEDIUM" "Imports risky module 'socket'. (line 1)"] false))
  /\ secure (mkScanResult "/nodes/node.py"
               [mkIssue "LOW" "Bandit scan skipped: No module named 'bandit'";
                mkIssue "MEDIUM" "Imports risky module 'socket'. (line 1)"] false)
     = false.
Proof.
  split; [vm_compute; reflexivity|].
  refine (proj2 (secure_iff_no_medium_or_high Samples.import_socket Samples.run_a
                   "node.py" [Linter; StaticRules; SandboxRuntime] _ _) _).
  - vm_compute; reflexivity.
  - exists (mkIssue "MEDIUM" "Imports risky module 'socket'. (line 1)").
    split; [right; left; reflexivity | left; reflexivity].
Defined.

(** C2: for a path that does not resolve to an existing regular file,
    the result carries the resolved absolute path, exactly one issue,
    of severity HIGH, and [secure = false], and no engine is invoked. *)
Theorem missing_file_single_high_issue h r node_path :
  isfile h (abspath h node_path) = false ->
  exists i,
    scan_custom_node h r node_path =
      ([], Ok (mkScanResult (abspath h node_path) [i] false))
    /\ severity i = "HIGH".
Proof.
  intros Hfile. unfold scan_custom_node. rewrite Hfile. simpl.
  eexists. split; reflexivity.
Qed.

Lemma missing_file_single_high_issue_witness :
  isfile Samples.import_socket (abspath Samples.import_socket "missing.py") = false
  /\ exists i,
       scan_custom_node Samples.import_socket Samples.run_a "missing.py"
         = ([], Ok (mkScanResult "/nodes/missing.py" [i] false))
       /\ severity i = "HIGH".
Proof.
  split; [reflexivity|].
  exact (missing_file_single_high_issue Samples.import_socket Samples.run_a
           "missing.py" eq_refl).
Defined.

(** ** The tree walk visits every node *)

Module WalkFacts.
Import Ast.

Lemma total_size_app l1 l2 : total_size (l1 ++ l2) = (total_size l1 + total_size l2)%nat.
Proof. unfold total_size. rewrite List.map_app, list_sum_app. reflexivity. Qed.

Lemma size_children n : size n = S (total_size (iter_child_nodes n)).
Proof.
  destruct n as [| | | | | | |keys values|func args kws lineno| | |];
    simpl; try reflexivity; unfold total_size; simpl; try lia.
  - f_equal. rewrite List.map_app, list_sum_app. f_equal.
    induction keys as [|[k|] keys IH]; simpl; [reflexivity | | ]; rewrite IH;
      reflexivity.
  - f_equal. rewrite List.map_app, list_sum_app, <- Nat.add_assoc. do 2 f_equal.
    induction kws as [|[a v] kws IH]; simpl; [reflexivity|].
    rewrite IH. lia.
Qed.

Lemma walk_queue_length fuel todo :
  (total_size todo <= fuel)%nat ->
  length (walk_queue fuel todo) = total_size todo.
Proof.
  revert todo. induction fuel as [|fuel IH]; intros todo Hle.
  - destruct todo as [|n todo]; [reflexivity|].
    unfold total_size in Hle. simpl in Hle. rewrite size_children in Hle. lia.
  - destruct todo as [|n todo]; [reflexivity|].
    simpl. unfold total_size in Hle |- *. simpl in Hle |- *.
    rewrite size_children in Hle |- *. fold (total_size todo) in Hle |- *.
    rewrite IH; rewrite total_size_app; lia.
Qed.

(** The fuel [walk] starts with is enough: it yields as many nodes as
    the tree has. *)
Lemma walk_length tree : length (walk tree) = size tree.
Proof.
  unfold walk. rewrite walk_queue_length; unfold total_size; simpl; lia.
Qed.

Lemma walk_root tree : exists rest, walk tree = tree :: rest.
Proof.
  unfold walk. rewrite size_children. simpl. eexists. reflexivity.
Qed.

End WalkFacts.

(** ** The static rule engine *)

Module StaticClaims.
Import Static Findings StaticFacts More.

Lemma static_scan_findings h source path found :
  _static_scan h source path = Ok found ->
  found = st_issues (emit (static_findings h source path) initial).
Proof.
  unfold _static_scan, static_findings.
  destruct (ast_parse h source path) as [tree|msg lineno|exc]; intros H.
  - injection H as <-. rewrite emit_app, scan_lines_emit, tree_walk_emit.
    reflexivity.
  - injection H as <-. rewrite emit_app, scan_lines_emit. reflexivity.
  - discriminate.
Qed.

Lemma static_scan_NoDup h source path found :
  _static_scan h source path = Ok found -> NoDup found.
Proof.
  intros H. apply static_scan_findings in H. subst found.
  apply emit_consistent, initial_consistent.
Qed.

Lemma static_scan_In h source path found i :
  _static_scan h source path = Ok found ->
  In i found <-> In i (List.map render (static_findings h source path)).
Proof.
  intros H. apply static_scan_findings in H. subst found.
  rewrite emit_In by apply initial_consistent. simpl. tauto.
Qed.

Lemma risky_severity_nonempty module sev :
  RISKY_IMPORTS !! module = Some sev -> nonempty sev = true.
Proof.
  intros H.
  assert (Hall : map_Forall (fun _ v => nonempty v = true) RISKY_IMPORTS).
  { unfold RISKY_IMPORTS. simpl.
    repeat (apply map_Forall_insert_2; [reflexivity|]).
    apply map_Forall_empty. }
  exact (Hall _ _ H).
Qed.

Lemma import_findings_risky name lineno sev :
  RISKY_IMPORTS !! Py.before_dot name = Some sev ->
  import_findings name lineno =
    [(sev, import_detail (Py.before_dot name), Some lineno)].
Proof.
  intros H. unfold import_findings. rewrite H.
  rewrite (risky_severity_nonempty _ _ H). reflexivity.
Qed.

Lemma count_occ_NoDup_le (l : list Issue) x :
  NoDup l -> (count_occ Issue_eq_dec l x <= 1)%nat.
Proof.
  intros Hnd. apply NoDup_ListNoDup in Hnd.
  apply (proj1 (List.NoDup_count_occ Issue_eq_dec l) Hnd).
Qed.

Lemma count_occ_NoDup_In (l : list Issue) x :
  NoDup l -> In x l -> count_occ Issue_eq_dec l x = 1%nat.
Proof.
  intros Hnd Hin. apply NoDup_ListNoDup in Hnd.
  apply (proj1 (List.NoDup_count_occ' Issue_eq_dec l) Hnd). assumption.
Qed.

Lemma tree_findings_In tree node f :
  In node (Ast.walk tree) -> In f (visit_findings node) ->
  In f (tree_findings tree).
Proof.
  intros Hn Hf. unfold tree_findings. apply in_flat_map. eauto.
Qed.

Lemma static_findings_parsed h source path tree f :
  ast_parse h source path = Ast.Parsed tree ->
  In f (tree_findings tree) -> In f (static_findings h source path).
Proof.
  intros Hp Hf. unfold static_findings. rewrite Hp.
  apply in_or_app. left. assumption.
Qed.

(** C5, as amended: the static scan lists an import issue at most once
    per risky module and line. Several imports of one risky module on
    one line give a single issue naming the module at that line;
    imports of the module on different lines give one issue per line,
    because the deduplication key is the rendered detail, line suffix
    included. *)
Theorem import_issue_once_per_module_and_line h source path found :
  _static_scan h source path = Ok found ->
  (forall severity module lineno,
     (count_occ Issue_eq_dec found
        (mkIssue severity (with_line (import_detail module) (Some lineno)))
      <= 1)%nat)
  /\ (forall tree names lineno alias severity,
        ast_parse h source path = Ast.Parsed tree ->
        In (Ast.Import names lineno) (Ast.walk tree) ->
        In alias names ->
        RISKY_IMPORTS !! Py.before_dot alias = Some severity ->
        count_occ Issue_eq_dec found
          (mkIssue severity
             (with_line (import_detail (Py.before_dot alias)) (Some lineno)))
        = 1%nat)
  /\ (forall tree module lineno severity,
        ast_parse h source path = Ast.Parsed tree ->
        In (Ast.ImportFrom (Some module) lineno) (Ast.walk tree) ->
        module <> "" ->
        RISKY_IMPORTS !! Py.before_dot module = Some severity ->
        count_occ Issue_eq_dec found
          (mkIssue severity
             (with_line (import_detail (Py.before_dot module)) (Some lineno)))
        = 1%nat).
Proof.
  intros H. pose proof (static_scan_NoDup _ _ _ _ H) as Hnd.
  split; [|split].
  - intros. apply count_occ_NoDup_le. assumption.
  - intros tree names lineno alias sev Hp Hnode Halias Hrisky.
    apply count_occ_NoDup_In; [assumption|].
    apply (static_scan_In _ _ _ _ _ H).
    apply in_map_iff.
    exists (sev, import_detail (Py.before_dot alias), Some lineno).
    split; [reflexivity|].
    eapply static_findings_parsed; [eassumption|].
    eapply tree_findings_In; [eassumption|].
    simpl. apply in_flat_map. exists alias. split; [assumption|].
    rewrite (import_findings_risky _ _ _ Hrisky). left. reflexivity.
  - intros tree module lineno sev Hp Hnode Hne Hrisky.
    apply count_occ_NoDup_In; [assumption|].
    apply (static_scan_In _ _ _ _ _ H).
    apply in_map_iff.
    exists (sev, import_detail (Py.before_dot module), Some lineno).
    split; [reflexivity|].
    eapply static_findings_parsed; [eassumption|].
    eapply tree_findings_In; [eassumption|].
    simpl. replace (nonempty module) with true.
    + rewrite (import_findings_risky _ _ _ Hrisky). left. reflexivity.
    + symmetry. unfold nonempty. apply negb_true_iff, String.eqb_neq. assumption.
Qed.

Lemma import_issue_once_per_module_and_line_witness :
  _static_scan Samples.import_os_same_line
    ("import os, os.path" +:+ Samples.nl) "/nodes/node.py"
  = Ok [mkIssue "LOW" "Imports risky module 'os'. (line 1)"]
  /\ count_occ Issue_eq_dec
       [mkIssue "LOW" "Imports risky module 'os'. (line 1)"]
       (mkIssue "LOW" (with_line (import_detail "os") (Some 1%Z))) = 1%nat.
Proof.
  split; [vm_compute; reflexivity|].
  refine (proj1 (proj2 (import_issue_once_per_module_and_line
            Samples.import_os_same_line
            ("import os, os.path" +:+ Samples.nl) "/nodes/node.py"
            [mkIssue "LOW" "Imports risky module 'os'. (line 1)"] _))
            (Ast.Other [Ast.Import ["os"; "os.path"] 1])
            ["os"; "os.path"] 1%Z "os.path" "LOW" _ _ _ _).
  - vm_compute; reflexivity.
  - reflexivity.
  - vm_compute. right. left. reflexivity.
  - right. left. reflexivity.
  - vm_compute; reflexivity.
Defined.

(** C5 as stated fails: a risky module imported on two lines gives two
    issues naming it. *)
Lemma import_on_two_lines_listed_twice :
  exists found,
    _static_scan Samples.import_socket_twice
      ("import socket" +:+ Samples.nl +:+ "import socket" +:+ Samples.nl)
      "/nodes/node.py" = Ok found
    /\ found = [mkIssue "MEDIUM" "Imports risky module 'socket'. (line 1)";
                mkIssue "MEDIUM" "Imports risky module 'socket'. (line 2)"]
    /\ length (List.filter (names_module "socket") found) = 2%nat.
Proof.
  eexists. split; [vm_compute; reflexivity|]. split; reflexivity.
Qed.

(** C6, as amended: a call is skipped, with no issue emitted for it,
    when its callee resolves to the empty name, that is when the callee
    expression is itself neither an identifier nor an attribute access.
    When only the base of an attribute access is unresolved, the callee
    resolves to the attribute name alone and is checked under it. *)
Theorem call_with_unresolved_callee func :
  _full_name func = "" ->
  (forall args keywords lineno st,
     visit (Ast.Call func args keywords lineno) st = st)
  /\ (forall attr, _full_name (Ast.Attribute func attr) = attr).
Proof.
  intros H. split.
  - intros args keywords lineno st. unfold visit. rewrite H. reflexivity.
  - intros attr. simpl. rewrite H. reflexivity.
Qed.

Lemma call_with_unresolved_callee_witness :
  _full_name (Ast.Other [Ast.Name "handlers"; Ast.Constant Ast.NotStr]) = ""
  /\ visit Samples.call_of_subscript initial = initial
  /\ _full_name (Ast.Attribute
                   (Ast.Other [Ast.Name "handlers"; Ast.Constant Ast.NotStr])
                   "system") = "system".
Proof.
  split; [reflexivity|].
  pose proof (call_with_unresolved_callee
                (Ast.Other [Ast.Name "handlers"; Ast.Constant Ast.NotStr])
                eq_refl) as [Hskip Hattr].
  split; [apply Hskip | apply Hattr].
Defined.

(** C6 as stated fails: the callee of [make().eval(code)] does not lead
    back to an identifier, and the walk still reports the call as a
    dangerous call of [eval]. *)
Lemma eval_on_call_result_flagged :
  rooted (Ast.Attribute (Ast.Call (Ast.Name "make") [] [] 1) "eval") = false
  /\ st_issues (visit Samples.eval_on_call_result initial)
     = [mkIssue "HIGH" "Uses eval() for dynamic code execution. (line 1)"]
  /\ visit Samples.eval_on_call_result initial <> initial.
Proof.
  split; [reflexivity|]. split; [vm_compute; reflexivity|].
  intros Heq. apply (f_equal st_issues) in Heq. vm_compute in Heq. discriminate.
Qed.

(** *** Parse failures *)

(** A message that is a literal text, possibly followed by more, starts
    with the first character of the literal. *)
Ltac literal_head := eexists _, _; split; [reflexivity | discriminate].

(** [H] says that a pair is in a one-element list of a literal message. *)
Ltac only_message H :=
  destruct H as [H|[]]; injection H as <- <-; literal_head.

(** No message of a line check starts like the parse-failure message. *)
Lemma line_matches_head line s m :
  In (s, m) (line_matches line) ->
  exists c m', m = String c m' /\ c <> "F"%char.
Proof.
  unfold line_matches. intros H.
  apply in_app_or in H. destruct H as [H|H].
  2: apply in_app_or in H; destruct H as [H|H].
  3: apply in_app_or in H; destruct H as [H|H].
  4: apply in_app_or in H; destruct H as [H|H].
  5: apply in_app_or in H; destruct H as [H|H].
  - destruct (Re.found _); [only_message H | destruct H].
  - destruct (Re.found _); [only_message H | destruct H].
  - destruct (Re.search OBFUSCATED_VAR_RE line); [|destruct H].
    destruct (existsb _ _); [only_message H | destruct H].
  - apply in_flat_map in H. destruct H as [[[p s'] m''] [He H]].
    destruct (Re.found _); [|destruct H].
    destruct H as [H|[]]. injection H as <- <-.
    unfold MALICIOUS_INDICATORS in He.
    repeat (destruct He as [He|He]; [injection He as <- <- <-; literal_head|]).
    destruct He.
  - destruct (_ || _); [|destruct H].
    apply in_app_or in H. destruct H as [H|H].
    + destruct (Re.search URL_RE line); [only_message H | destruct H].
    + destruct (Re.search IP_RE line); [only_message H | destruct H].
  - apply in_flat_map in H. destruct H as [[p [s' m'']] [He H]].
    destruct (Re.found _); [|destruct H].
    destruct H as [H|[]]. injection H as <- <-.
    unfold DANGEROUS_LINE_PATTERNS in He.
    repeat (destruct He as [He|He]; [injection He as <- <- <-; literal_head|]).
    destruct He.
Qed.

Lemma line_finding_not_failure idx line msg lineno f :
  In f (line_findings idx line) ->
  render f <> mkIssue "MEDIUM" (with_line (parse_failure_detail msg) lineno).
Proof.
  unfold line_findings. intros Hf. apply in_map_iff in Hf.
  destruct Hf as [[s m] [<- Hm]]. simpl.
  apply line_matches_head in Hm. destruct Hm as (c & m' & -> & Hc).
  intros Heq. injection Heq as _ Heq.
  destruct lineno; simpl in Heq; injection Heq as Heq _; congruence.
Qed.

(** After a SyntaxError: the parse-failure issue first and once, then
    exactly the findings of the line checks. *)
Lemma syntax_error_scan h source path msg lineno :
  ast_parse h source path = Ast.SyntaxError msg lineno ->
  let failure := mkIssue "MEDIUM" (with_line (parse_failure_detail msg) lineno) in
  exists rest,
    _static_scan h source path = Ok (failure :: rest)
    /\ ~ In failure rest
    /\ forall i, In i rest <->
         exists (k : nat) line,
           Py.splitlines source !! k = Some line
           /\ In i (List.map render (line_findings (1 + Z.of_nat k) line)).
Proof.
  intros Hp failure.
  set (lf := lines_findings 1 (Py.splitlines source)).
  set (st0 := add_issue "MEDIUM" (parse_failure_detail msg) lineno initial).
  assert (Hst0 : st_issues st0 = [failure]).
  { unfold st0. rewrite add_issue_fresh by (simpl; set_solver). reflexivity. }
  assert (Hc0 : consistent st0) by apply add_issue_consistent, initial_consistent.
  assert (Hscan : _static_scan h source path = Ok (st_issues (emit lf st0))).
  { unfold _static_scan. rewrite Hp. rewrite scan_lines_emit. reflexivity. }
  destruct (emit_extends lf st0) as [rest Hrest]. rewrite Hst0 in Hrest.
  simpl in Hrest.
  pose proof (emit_consistent lf st0 Hc0) as [Hnd _]. rewrite Hrest in Hnd.
  apply NoDup_cons in Hnd. destruct Hnd as [Hnotin _].
  assert (Hlines : forall i,
    In i (List.map render lf) <->
    exists (k : nat) line,
      Py.splitlines source !! k = Some line
      /\ In i (List.map render (line_findings (1 + Z.of_nat k) line))).
  { intros i. rewrite in_map_iff. split.
    - intros (f & <- & Hf). apply lines_findings_In in Hf.
      destruct Hf as (k & line & Hk & Hf). exists k, line.
      split; [assumption|]. apply in_map. assumption.
    - intros (k & line & Hk & Hi). apply in_map_iff in Hi.
      destruct Hi as (f & <- & Hf). exists f. split; [reflexivity|].
      apply lines_findings_In. exists k, line. auto. }
  exists rest. split; [rewrite Hscan, Hrest; reflexivity|].
  split; [rewrite <- list_elem_of_In; assumption|].
  intros i. rewrite <- Hlines.
  pose proof (emit_In lf st0 i Hc0) as Hin. rewrite Hrest, Hst0 in Hin.
  simpl in Hin. split.
  - intros Hi. destruct (proj1 Hin (or_intror Hi)) as [[Heq|[]]|Hm]; [|assumption].
    subst i. exfalso. apply Hnotin, list_elem_of_In, Hi.
  - intros Hi. destruct (proj2 Hin (or_intror Hi)) as [Heq|Hr]; [|assumption].
    exfalso. apply in_map_iff in Hi. destruct Hi as (f & Hf & Hfl).
    apply lines_findings_In in Hfl. destruct Hfl as (k & line & _ & Hfl).
    apply (line_finding_not_failure _ _ msg lineno _ Hfl).
    rewrite Hf, <- Heq. reflexivity.
Qed.

(** C7, as amended: when the parser raises SyntaxError, the static scan
    emits the MEDIUM issue [Failed to parse Python AST: <msg>], with the
    suffix of the parser's line number when it reports one, exactly once
    and first; the rest of its output is exactly what the line checks
    find on the lines of the raw text: no finding of a tree walk, and
    every finding of every line check. When the parser raises another
    exception, the static scan raises it: no issue is emitted and no
    line check runs. *)
Theorem parse_failure_keeps_line_scan h source path :
  (forall msg lineno,
     ast_parse h source path = Ast.SyntaxError msg lineno ->
     let failure :=
       mkIssue "MEDIUM"
         match lineno with
         | Some n => "Failed to parse Python AST: " +:+ msg
                     +:+ " (line " +:+ Py.str_of_int n +:+ ")"
         | None => "Failed to parse Python AST: " +:+ msg
         end in
     exists rest,
       _static_scan h source path = Ok (failure :: rest)
       /\ ~ In failure rest
       /\ forall i, In i rest <->
            exists (k : nat) line,
              Py.splitlines source !! k = Some line
              /\ In i (List.map render (line_findings (1 + Z.of_nat k) line)))
  /\ (forall exc,
        ast_parse h source path = Ast.ParseRaised exc ->
        _static_scan h source path = Raised exc).
Proof.
  split.
  - intros msg lineno Hp failure.
    assert (Hf : failure
                 = mkIssue "MEDIUM" (with_line (parse_failure_detail msg) lineno)).
    { unfold failure. destruct lineno; reflexivity. }
    rewrite Hf. exact (syntax_error_scan h source path msg lineno Hp).
  - intros exc Hp. unfold _static_scan. rewrite Hp. reflexivity.
Qed.

Lemma parse_failure_keeps_line_scan_witness :
  ast_parse Samples.broken_def ("def f(: eval(x)" +:+ Samples.nl) "/nodes/node.py"
  = Ast.SyntaxError "invalid syntax" (Some 1%Z)
  /\ exists rest,
       _static_scan Samples.broken_def ("def f(: eval(x)" +:+ Samples.nl)
         "/nodes/node.py"
       = Ok (mkIssue "MEDIUM" "Failed to parse Python AST: invalid syntax (line 1)"
             :: rest)
       /\ In (mkIssue "HIGH" "Uses eval() for dynamic code execution. (line 1)") rest.
Proof.
  split; [reflexivity|].
  destruct (proj1 (parse_failure_keeps_line_scan Samples.broken_def
                     ("def f(: eval(x)" +:+ Samples.nl) "/nodes/node.py")
              "invalid syntax" (Some 1%Z) eq_refl) as (rest & Hscan & _ & Hrest).
  exists rest. split; [exact Hscan|].
  apply Hrest. exists 0%nat, "def f(: eval(x)". split; [reflexivity|].
  vm_compute. left. reflexivity.
Defined.

(** C7 as stated fails: a source with a null byte fails to parse with a
    ValueError (CPython before 3.12), which the static scan does not
    catch. The scan raises: no MEDIUM issue is emitted, and the line
    check that matches the call of [eval] on line 1 does not run. *)
Lemma value_error_escapes_static_scan :
  ast_parse null_byte_with_eval
    ("eval(x)" +:+ String "000" EmptyString +:+ Samples.nl) "/nodes/node.py"
  = Ast.ParseRaised "source code string cannot contain null bytes"
  /\ Py.splitlines ("eval(x)" +:+ String "000" EmptyString +:+ Samples.nl) !! 0%nat
     = Some ("eval(x)" +:+ String "000" EmptyString)
  /\ Re.found (Re.search (call_pattern (Re.lit "eval"))
                 ("eval(x)" +:+ String "000" EmptyString)) = true
  /\ _static_scan null_byte_with_eval
       ("eval(x)" +:+ String "000" EmptyString +:+ Samples.nl) "/nodes/node.py"
     = Raised "source code string cannot contain null bytes"
  /\ forall found,
       _static_scan null_byte_with_eval
         ("eval(x)" +:+ String "000" EmptyString +:+ Samples.nl) "/nodes/node.py"
       <> Ok found.
Proof.
  split; [reflexivity|]. split; [vm_compute; reflexivity|].
  split; [vm_compute; reflexivity|]. split; [reflexivity|].
  intros found. discriminate.
Qed.

(** *** Line suffixes *)

Lemma last_char_app s t : t <> "" -> last_char (s +:+ t) = last_char t.
Proof.
  intros Ht. induction s as [|c s IH]; [reflexivity|].
  simpl. rewrite IH.
  destruct (s +:+ t) eqn:Heq; [|reflexivity].
  destruct s; simpl in Heq; [contradiction | discriminate].
Qed.

Lemma has_line_suffix_last detail :
  has_line_suffix detail -> last_char detail = Some ")"%char.
Proof.
  intros (body & n & ->).
  rewrite last_char_app.
  2:{ simpl. discriminate. }
  change (" (line " +:+ Py.str_of_int n +:+ ")")
    with (" (line " +:+ (Py.str_of_int n +:+ ")")).
  rewrite last_char_app.
  2:{ destruct (Py.str_of_int n); simpl; discriminate. }
  rewrite last_char_app by discriminate. reflexivity.
Qed.

(** C10, as amended: every issue of the static rule engine has a detail
    that ends with the suffix (line N) for some number N, except the
    parse-failure issue when the parser's SyntaxError carries no line
    number: then that one issue has no suffix. *)
Theorem static_issue_has_line_suffix h source path found i :
  _static_scan h source path = Ok found ->
  In i found ->
  has_line_suffix (detail i)
  \/ exists msg,
       ast_parse h source path = Ast.SyntaxError msg None
       /\ i = mkIssue "MEDIUM" (parse_failure_detail msg).
Proof.
  intros H Hi. apply (static_scan_In _ _ _ _ _ H) in Hi.
  apply in_map_iff in Hi. destruct Hi as (f & <- & Hf).
  unfold static_findings in Hf. apply in_app_or in Hf. destruct Hf as [Hf|Hf].
  - destruct (ast_parse h source path) as [tree|msg lineno|exc].
    + left. apply render_has_line_suffix.
      pose proof (tree_findings_line tree) as Hall.
      rewrite Forall_forall in Hall. apply Hall, list_elem_of_In, Hf.
    + destruct Hf as [<-|[]]. destruct lineno as [n|].
      * left. apply render_has_line_suffix. eexists; reflexivity.
      * right. exists msg. split; reflexivity.
    + destruct Hf.
  - left. apply render_has_line_suffix.
    pose proof (lines_findings_line 1 (Py.splitlines source)) as Hall.
    rewrite Forall_forall in Hall. apply Hall, list_elem_of_In, Hf.
Qed.

Lemma static_issue_has_line_suffix_witness :
  _static_scan Samples.import_socket ("import socket" +:+ Samples.nl)
    "/nodes/node.py"
  = Ok [mkIssue "MEDIUM" "Imports risky module 'socket'. (line 1)"]
  /\ has_line_suffix "Imports risky module 'socket'. (line 1)".
Proof.
  split; [vm_compute; reflexivity|].
  destruct (static_issue_has_line_suffix Samples.import_socket
              ("import socket" +:+ Samples.nl) "/nodes/node.py"
              [mkIssue "MEDIUM" "Imports risky module 'socket'. (line 1)"]
              (mkIssue "MEDIUM" "Imports risky module 'socket'. (line 1)"))
    as [Hs|(msg & Hp & _)].
  - vm_compute; reflexivity.
  - left. reflexivity.
  - exact Hs.
  - discriminate Hp.
Defined.

(** C10 as stated fails: for a file with a null byte the parser's
    SyntaxError has no line number, and the issue the static scan
    emits for it has no line suffix. *)
Lemma parse_failure_without_line_has_no_suffix :
  _static_scan Samples.null_byte
    ("x = 1" +:+ String "000" EmptyString +:+ Samples.nl) "/nodes/node.py"
  = Ok [mkIssue "MEDIUM"
          "Failed to parse Python AST: source code string cannot contain null bytes"]
  /\ ~ has_line_suffix
         "Failed to parse Python AST: source code string cannot contain null bytes".
Proof.
  split; [vm_compute; reflexivity|].
  intros Hs. apply has_line_suffix_last in Hs. vm_compute in Hs. discriminate.
Qed.

End StaticClaims.

(** ** The sandbox runtime *)

Module DynamicClaims.
Import Sandbox Dynamic More.

Lemma drain_app queue issues : drain queue issues = issues ++ queue.
Proof.
  revert issues. induction queue as [|e queue IH]; intros issues; simpl.
  - symmetry. apply app_nil_r.
  - rewrite IH, <- app_assoc. reflexivity.
Qed.

(** The issues of the dynamic analysis: the timeout issue when the
    worker is still alive, then what the queue yields. *)
Lemma run_dynamic_analysis_eq h r node_path :
  _run_dynamic_analysis h r node_path
  = (if is_alive (_dynamic_import_worker h r node_path) then [TIMED_OUT] else [])
    ++ queue (_dynamic_import_worker h r node_path).
Proof.
  unfold _run_dynamic_analysis, supervise.
  destruct (is_alive _); simpl; rewrite drain_app; reflexivity.
Qed.

(** What the supervisor does when the worker is still alive after the
    join of five seconds: it terminates the worker, records the HIGH
    timeout issue, and drains what the queue still yields. *)
Lemma timeout_branch h r node_path :
  is_alive (_dynamic_import_worker h r node_path) = true ->
  supervise h r node_path
  = ([start; join 5; terminate; join 1]
     ++ repeat get_nowait (S (length (queue (_dynamic_import_worker h r node_path)))),
     mkIssue "HIGH" "Dynamic analysis timed out during module import."
     :: queue (_dynamic_import_worker h r node_path)).
Proof.
  intros Halive. unfold supervise. rewrite Halive. simpl.
  rewrite drain_app. reflexivity.
Qed.


(** What interceptors log is of severity HIGH or MEDIUM, and its detail
    starts with [Runtime]. *)
Lemma log_shape c :
  (severity (log c) = "HIGH" \/ severity (log c) = "MEDIUM")
  /\ exists d, detail (log c) = "Runtime " +:+ d.
Proof.
  destruct c; simpl; (split; [auto | eexists; reflexivity]).
Qed.








(** The same for an instance of Exception whose [__str__] raises: the
    handler fails while it builds the text of its record. *)
Lemma unprintable_exception_leaves_no_issue :
  module_at raise_unprintable "/nodes/node.py"
  = Some (fun _ _ => Finish (Raises (mkException "Unprintable" None true)))
  /\ _run_dynamic_analysis raise_unprintable Samples.run_a "/nodes/node.py" = [].
Proof.
  split; [reflexivity | vm_compute; reflexivity].
Qed.

End DynamicClaims.

(** ** Two scans of one file *)




(** The text an interceptor records for a set argument follows the hash
    seed of the worker process: two scans of a module that ignores its
    name differ as well. *)
Lemma rescan_differs_with_process_seed :
  Dynamic._run_dynamic_analysis More.set_argument
    (mkRunOf Samples.uuid_a 0 1000 false None) "/nodes/node.py"
  <> Dynamic._run_dynamic_analysis More.set_argument
       (mkRunOf Samples.uuid_a 1 1000 false None) "/nodes/node.py".
Proof. vm_compute. discriminate. Qed.

(** The timing of the sandbox matters as well: a module that is still
    running when the budget ends in one scan and has returned in the
    other is reported as timed out in the first scan only. *)
Lemma rescan_differs_with_timing :
  Dynamic._run_dynamic_analysis Samples.spin (mkRun Samples.uuid_a 1) "/nodes/node.py"
  <> Dynamic._run_dynamic_analysis Samples.spin (mkRun Samples.uuid_a 0)
       "/nodes/node.py".
Proof. vm_compute. discriminate. Qed.

(** ** The order of the issues *)

(** C4, as amended: in the result of a scan that ran the engines, the
    issues are, in this order, those of the external linter adapter,
    then those of the static rule engine, then those of the sandbox
    runtime; the engines are invoked in that order. *)
Theorem issues_in_engine_order h r node_path t res source :
  let abs_path := abspath h node_path in
  isfile h abs_path = true ->
  read_text h abs_path = ReadOk source ->
  scan_custom_node h r node_path = (t, Ok res) ->
  exists static_found,
    Static._static_scan h source abs_path = Ok static_found
    /\ t = [Linter; StaticRules; SandboxRuntime]
    /\ issues res
       = _run_bandit h abs_path ++ static_found
         ++ Dynamic._run_dynamic_analysis h r abs_path.
Proof.
  intros abs_path Hfile Hread H. apply scan_custom_node_cases in H.
  fold abs_path in H.
  destruct H as [(Hf & _)|[(exc & _ & Hr & _)|
                 (source' & found & _ & Hr & Hst & -> & ->)]].
  - congruence.
  - congruence.
  - assert (source' = source) as -> by congruence.
    exists found. repeat split; assumption.
Qed.

Lemma issues_in_engine_order_witness :
  isfile Samples.import_socket (abspath Samples.import_socket "node.py") = true
  /\ exists res,
       scan_custom_node Samples.import_socket Samples.run_a "node.py"
         = ([Linter; StaticRules; SandboxRuntime], Ok res)
       /\ issues res
          = [mkIssue "LOW" "Bandit scan skipped: No module named 'bandit'";
             mkIssue "MEDIUM" "Imports risky module 'socket'. (line 1)"].
Proof.
  split; [reflexivity|].
  exists (mkScanResult "/nodes/node.py"
            [mkIssue "LOW" "Bandit scan skipped: No module named 'bandit'";
             mkIssue "MEDIUM" "Imports risky module 'socket'. (line 1)"] false).
  split; [vm_compute; reflexivity|].
  destruct (issues_in_engine_order Samples.import_socket Samples.run_a "node.py"
              [Linter; StaticRules; SandboxRuntime]
              (mkScanResult "/nodes/node.py"
                 [mkIssue "LOW" "Bandit scan skipped: No module named 'bandit'";
                  mkIssue "MEDIUM" "Imports risky module 'socket'. (line 1)"] false)
              ("import socket" +:+ Samples.nl))
    as (static_found & _ & _ & Hissues).
  - reflexivity.
  - reflexivity.
  - vm_compute; reflexivity.
  - reflexivity.
Defined.

(** C4 as stated fails: the issue of the linter adapter comes before the
    issue of the static rule engine, not after it. *)
Lemma linter_issues_come_first :
  exists res static_found,
    scan_custom_node Samples.import_socket Samples.run_a "node.py"
      = ([Linter; StaticRules; SandboxRuntime], Ok res)
    /\ Static._static_scan Samples.import_socket ("import socket" +:+ Samples.nl)
         "/nodes/node.py" = Ok static_found
    /\ issues res
       <> static_found
          ++ _run_bandit Samples.import_socket "/nodes/node.py"
          ++ Dynamic._run_dynamic_analysis Samples.import_socket Samples.run_a
               "/nodes/node.py".
Proof.
  eexists _, _. split; [vm_compute; reflexivity|].
  split; [vm_compute; reflexivity|]. vm_compute. discriminate.
Qed.

(** * Further properties of the static rule engine *)

Module MoreStatic.
Import Static Findings StaticFacts StaticClaims More.

Lemma risky_severity_valid module sev :
  RISKY_IMPORTS !! module = Some sev -> valid_severity sev.
Proof.
  intros H.
  assert (Hall : map_Forall (fun _ v => valid_severity v) RISKY_IMPORTS).
  { unfold RISKY_IMPORTS, valid_severity. simpl.
    repeat (apply map_Forall_insert_2; [auto|]).
    apply map_Forall_empty. }
  exact (Hall _ _ H).
Qed.

Lemma dangerous_severity name sev msg :
  DANGEROUS_CALLS !! name = Some (sev, msg) -> sev = "HIGH" \/ sev = "MEDIUM".
Proof.
  intros H.
  assert (Hall : map_Forall (fun _ v => fst v = "HIGH" \/ fst v = "MEDIUM")
                            DANGEROUS_CALLS).
  { unfold DANGEROUS_CALLS. simpl.
    repeat (apply map_Forall_insert_2; [simpl; auto|]).
    apply map_Forall_empty. }
  exact (Hall _ _ H).
Qed.

Lemma import_findings_severity name lineno f :
  In f (import_findings name lineno) -> valid_severity (fst (fst f)).
Proof.
  unfold import_findings.
  destruct (RISKY_IMPORTS !! Py.before_dot name) as [sev|] eqn:Hr; [|intros []].
  destruct (nonempty sev); [|intros []].
  intros [<-|[]]. simpl. eapply risky_severity_valid, Hr.
Qed.

Lemma visit_findings_severity node f :
  In f (visit_findings node) -> valid_severity (fst (fst f)).
Proof.
  destruct node as [| | | | | | | |func args kws lineno|names lineno
                   |module lineno|]; try (intros []).
  - unfold visit_findings. intros H.
    apply in_app_or in H. destruct H as [H|H].
    2: apply in_app_or in H; destruct H as [H|H].
    + destruct (DANGEROUS_CALLS !! _) as [[s m]|] eqn:Hd; [|destruct H].
      destruct H as [<-|[]]. simpl.
      destruct (dangerous_severity _ _ _ Hd) as [->| ->]; unfold valid_severity; auto.
    + destruct (_ || _); [|destruct H].
      destruct H as [<-|H]; [unfold valid_severity; simpl; auto|].
      apply in_map_iff in H. destruct H as (url & <- & _).
      unfold valid_severity; simpl; auto.
    + destruct (_ && _); [|destruct H].
      destruct H as [<-|[]]. unfold valid_severity; simpl; auto.
  - simpl. intros H. apply in_flat_map in H. destruct H as (a & _ & H).
    eapply import_findings_severity, H.
  - simpl. destruct module as [m|]; [|intros []].
    destruct (nonempty m); [|intros []]. apply import_findings_severity.
Qed.

Lemma line_matches_severity line s m :
  In (s, m) (line_matches line) -> valid_severity s.
Proof.
  unfold line_matches, valid_severity. intros H.
  apply in_app_or in H. destruct H as [H|H].
  2: apply in_app_or in H; destruct H as [H|H].
  3: apply in_app_or in H; destruct H as [H|H].
  4: apply in_app_or in H; destruct H as [H|H].
  5: apply in_app_or in H; destruct H as [H|H].
  - destruct (Re.found _); [|destruct H].
    destruct H as [H|[]]. injection H as <- <-. auto.
  - destruct (Re.found _); [|destruct H].
    destruct H as [H|[]]. injection H as <- <-. auto.
  - destruct (Re.search OBFUSCATED_VAR_RE line); [|destruct H].
    destruct (existsb _ _); [|destruct H].
    destruct H as [H|[]]. injection H as <- <-. auto.
  - apply in_flat_map in H. destruct H as [[[p s'] m''] [He H]].
    destruct (Re.found _); [|destruct H].
    destruct H as [H|[]]. injection H as <- <-.
    unfold MALICIOUS_INDICATORS in He.
    repeat (destruct He as [He|He]; [injection He as <- <- <-; auto|]).
    destruct He.
  - destruct (_ || _); [|destruct H].
    apply in_app_or in H. destruct H as [H|H].
    + destruct (Re.search URL_RE line); [|destruct H].
      destruct H as [H|[]]. injection H as <- <-. auto.
    + destruct (Re.search IP_RE line); [|destruct H].
      destruct H as [H|[]]. injection H as <- <-. auto.
  - apply in_flat_map in H. destruct H as [[p [s' m'']] [He H]].
    destruct (Re.found _); [|destruct H].
    destruct H as [H|[]]. injection H as <- <-.
    unfold DANGEROUS_LINE_PATTERNS in He.
    repeat (destruct He as [He|He]; [injection He as <- <- <-; auto|]).
    destruct He.
Qed.

(** X1: every issue of the static rule engine has one of the three
    severities LOW, MEDIUM, HIGH. *)
Theorem static_severity_valid h source path found i :
  _static_scan h source path = Ok found ->
  In i found -> valid_severity (severity i).
Proof.
  intros H Hi. apply (static_scan_In _ _ _ _ _ H) in Hi.
  apply in_map_iff in Hi. destruct Hi as ([[s m] l] & <- & Hf). simpl.
  unfold static_findings in Hf. apply in_app_or in Hf. destruct Hf as [Hf|Hf].
  - destruct (ast_parse h source path) as [tree|msg lineno|exc].
    + unfold tree_findings in Hf. apply in_flat_map in Hf.
      destruct Hf as (n & _ & Hf).
      exact (visit_findings_severity n _ Hf).
    + destruct Hf as [Hf|[]]. injection Hf as <- _ _.
      unfold valid_severity. auto.
    + destruct Hf.
  - apply lines_findings_In in Hf. destruct Hf as (k & line & _ & Hf).
    unfold line_findings in Hf. apply in_map_iff in Hf.
    destruct Hf as ([s' m'] & Heq & Hm). injection Heq as -> _ _.
    eapply line_matches_severity, Hm.
Qed.

Lemma static_severity_valid_witness :
  _static_scan Samples.spin
    ("import os" +:+ Samples.nl +:+ "os.system('id')" +:+ Samples.nl
     +:+ "while True: pass" +:+ Samples.nl) "/nodes/node.py"
  = Ok [mkIssue "LOW" "Imports risky module 'os'. (line 1)";
        mkIssue "HIGH" "Uses os.system() to execute shell commands. (line 2)"]
  /\ valid_severity "HIGH".
Proof.
  split; [vm_compute; reflexivity|].
  apply (static_severity_valid Samples.spin
           ("import os" +:+ Samples.nl +:+ "os.system('id')" +:+ Samples.nl
            +:+ "while True: pass" +:+ Samples.nl) "/nodes/node.py"
           [mkIssue "LOW" "Imports risky module 'os'. (line 1)";
            mkIssue "HIGH" "Uses os.system() to execute shell commands. (line 2)"]
           (mkIssue "HIGH" "Uses os.system() to execute shell commands. (line 2)")).
  - vm_compute; reflexivity.
  - right. left. reflexivity.
Defined.

(** X2: the static rule engine never lists the same severity and detail
    twice. *)
Theorem static_scan_no_duplicates h source path found :
  _static_scan h source path = Ok found -> NoDup found.
Proof.
  intros H. apply static_scan_findings in H. subst found.
  apply emit_consistent, initial_consistent.
Qed.

Lemma static_scan_no_duplicates_witness :
  _static_scan Samples.broken_def ("def f(: eval(x)" +:+ Samples.nl) "/nodes/node.py"
  = Ok [mkIssue "MEDIUM" "Failed to parse Python AST: invalid syntax (line 1)";
        mkIssue "HIGH" "Uses eval() for dynamic code execution. (line 1)"]
  /\ NoDup [mkIssue "MEDIUM" "Failed to parse Python AST: invalid syntax (line 1)";
            mkIssue "HIGH" "Uses eval() for dynamic code execution. (line 1)"].
Proof.
  split; [vm_compute; reflexivity|].
  apply (static_scan_no_duplicates Samples.broken_def
           ("def f(: eval(x)" +:+ Samples.nl) "/nodes/node.py").
  vm_compute; reflexivity.
Defined.

(** Membership in a list that computes to a list of closed terms. *)
Ltac in_computed_list :=
  vm_compute; repeat (first [left; reflexivity | right]).

Lemma tree_finding_reported h source path found tree node f :
  _static_scan h source path = Ok found ->
  ast_parse h source path = Ast.Parsed tree ->
  In node (Ast.walk tree) ->
  In f (visit_findings node) ->
  In (render f) found.
Proof.
  intros H Hp Hn Hf. apply (static_scan_In _ _ _ _ _ H).
  apply in_map. eapply static_findings_parsed; [eassumption|].
  eapply tree_findings_In; eassumption.
Qed.

(** X3: a call whose resolved name is a key of DANGEROUS_CALLS is
    reported with the severity and message of the table and the line of
    the call, wherever the call stands in the tree. *)
Theorem dangerous_call_reported h source path found tree
    func args keywords lineno sev msg :
  _static_scan h source path = Ok found ->
  ast_parse h source path = Ast.Parsed tree ->
  In (Ast.Call func args keywords lineno) (Ast.walk tree) ->
  DANGEROUS_CALLS !! _full_name func = Some (sev, msg) ->
  In (mkIssue sev (with_line msg (Some lineno))) found.
Proof.
  intros H Hp Hn Hd.
  apply (tree_finding_reported _ _ _ _ _ _ (sev, msg, Some lineno) H Hp Hn).
  unfold visit_findings. rewrite Hd. apply in_or_app. left. left. reflexivity.
Qed.

Lemma dangerous_call_reported_witness :
  DANGEROUS_CALLS !! _full_name (Ast.Attribute (Ast.Name "os") "system")
  = Some ("HIGH", "Uses os.system() to execute shell commands.")
  /\ In (mkIssue "HIGH" "Uses os.system() to execute shell commands. (line 2)")
        [mkIssue "LOW" "Imports risky module 'os'. (line 1)";
         mkIssue "HIGH" "Uses os.system() to execute shell commands. (line 2)"].
Proof.
  split; [vm_compute; reflexivity|].
  refine (dangerous_call_reported Samples.spin
            ("import os" +:+ Samples.nl +:+ "os.system('id')" +:+ Samples.nl
             +:+ "while True: pass" +:+ Samples.nl) "/nodes/node.py" _
            (Ast.Other
               [Ast.Import ["os"] 1;
                Ast.Other [Ast.Call (Ast.Attribute (Ast.Name "os") "system")
                                    [Ast.Constant (Ast.Str "id")] [] 2];
                Ast.Other [Ast.Constant Ast.NotStr; Ast.Other []]])
            (Ast.Attribute (Ast.Name "os") "system")
            [Ast.Constant (Ast.Str "id")] [] 2%Z
            "HIGH" "Uses os.system() to execute shell commands." _ _ _ _).
  - vm_compute; reflexivity.
  - reflexivity.
  - in_computed_list.
  - vm_compute; reflexivity.
Defined.

(** X4: a call whose resolved name is in NETWORK_CALL_PREFIXES or starts
    with [urllib.] is reported as a MEDIUM network call, and every string
    literal among its arguments that holds a URL or an IPv4 address is
    reported as a MEDIUM network call target, at the line of the call. *)
Theorem network_call_reported h source path found tree
    func args keywords lineno :
  let call := Ast.Call func args keywords lineno in
  let call_name := _full_name func in
  _static_scan h source path = Ok found ->
  ast_parse h source path = Ast.Parsed tree ->
  In call (Ast.walk tree) ->
  bool_decide (call_name ∈ NETWORK_CALL_PREFIXES)
    || Py.startswith call_name "urllib." = true ->
  In (mkIssue "MEDIUM"
        (with_line ("Network call via '" +:+ call_name +:+ "'.") (Some lineno)))
     found
  /\ forall value,
       In value (_extract_string_literals call) ->
       Re.found (Re.search URL_RE value) || Re.found (Re.search IP_RE value) = true ->
       In (mkIssue "MEDIUM"
             (with_line ("Network call target appears in code: " +:+ value +:+ ".")
                        (Some lineno)))
          found.
Proof.
  intros call call_name H Hp Hn Hnet. split.
  - apply (tree_finding_reported _ _ _ _ _ _
             ("MEDIUM", "Network call via '" +:+ call_name +:+ "'.", Some lineno)
             H Hp Hn).
    unfold call, visit_findings. fold call_name. rewrite Hnet.
    apply in_or_app. right. apply in_or_app. left. left. reflexivity.
  - intros value Hv Hm.
    apply (tree_finding_reported _ _ _ _ _ _
             ("MEDIUM", "Network call target appears in code: " +:+ value +:+ ".",
              Some lineno) H Hp Hn).
    unfold call, visit_findings. fold call_name. rewrite Hnet.
    apply in_or_app. right. apply in_or_app. left. right.
    apply in_map_iff. exists value. split; [reflexivity|].
    unfold _extract_urls_from_call. apply filter_In. split; assumption.
Qed.

Lemma network_call_reported_witness :
  _static_scan fetch_literal
    ("import requests" +:+ Samples.nl
     +:+ "requests.get('http://10.0.0.5/x')" +:+ Samples.nl) "/nodes/node.py"
  = Ok [mkIssue "LOW" "Imports risky module 'requests'. (line 1)";
        mkIssue "MEDIUM" "Network call via 'requests.get'. (line 2)";
        mkIssue "MEDIUM"
          "Network call target appears in code: http://10.0.0.5/x. (line 2)";
        mkIssue "MEDIUM" "Hard-coded URL in network call: http://10.0.0.5/x. (line 2)";
        mkIssue "MEDIUM" "Hard-coded IP in network call: 10.0.0.5. (line 2)"]
  /\ In (mkIssue "MEDIUM" "Network call via 'requests.get'. (line 2)")
        [mkIssue "LOW" "Imports risky module 'requests'. (line 1)";
         mkIssue "MEDIUM" "Network call via 'requests.get'. (line 2)";
         mkIssue "MEDIUM"
           "Network call target appears in code: http://10.0.0.5/x. (line 2)";
         mkIssue "MEDIUM" "Hard-coded URL in network call: http://10.0.0.5/x. (line 2)";
         mkIssue "MEDIUM" "Hard-coded IP in network call: 10.0.0.5. (line 2)"].
Proof.
  split; [vm_compute; reflexivity|].
  refine (proj1 (network_call_reported fetch_literal
            ("import requests" +:+ Samples.nl
             +:+ "requests.get('http://10.0.0.5/x')" +:+ Samples.nl)
            "/nodes/node.py" _
            (Ast.Other
               [Ast.Import ["requests"] 1;
                Ast.Other [Ast.Call (Ast.Attribute (Ast.Name "requests") "get")
                             [Ast.Constant (Ast.Str "http://10.0.0.5/x")] [] 2]])
            (Ast.Attribute (Ast.Name "requests") "get")
            [Ast.Constant (Ast.Str "http://10.0.0.5/x")] [] 2%Z _ _ _ _)).
  - vm_compute; reflexivity.
  - reflexivity.
  - in_computed_list.
  - vm_compute; reflexivity.
Defined.

Lemma mem_In value values : Py.mem value values = true <-> In value values.
Proof.
  unfold Py.mem. rewrite existsb_exists. split.
  - intros (x & Hx & Heq). apply String.eqb_eq in Heq. subst. assumption.
  - intros Hin. exists value. split; [assumption | apply String.eqb_refl].
Qed.

(** X5: a call of [subprocess.run], [subprocess.call], [subprocess.Popen]
    or [os.system] is reported as a HIGH runtime pip install when, among
    the string literals of its arguments, one is [pip] followed by digits
    only and one is [install], in any letter case and in any order. *)
Theorem pip_install_call_reported h source path found tree
    func args keywords lineno pip install :
  let call := Ast.Call func args keywords lineno in
  _static_scan h source path = Ok found ->
  ast_parse h source path = Ast.Parsed tree ->
  In call (Ast.walk tree) ->
  In (_full_name func) spawning_calls ->
  In pip (_extract_string_literals call) ->
  In install (_extract_string_literals call) ->
  Re.found (Re.match_ PIP_ARGS_RE (Py.lower pip)) = true ->
  Py.lower install = "install" ->
  In (mkIssue "HIGH" (with_line "Invokes pip install at runtime." (Some lineno)))
     found.
Proof.
  intros call H Hp Hn Hspawn Hpip Hinstall Hre Hlow.
  apply (tree_finding_reported _ _ _ _ _ _
           ("HIGH", "Invokes pip install at runtime.", Some lineno) H Hp Hn).
  unfold call, visit_findings.
  apply in_or_app. right. apply in_or_app. right.
  replace (Py.mem (_full_name func) spawning_calls) with true
    by (symmetry; apply mem_In; assumption).
  replace (_call_invokes_pip (Ast.Call func args keywords lineno)) with true.
  { left. reflexivity. }
  symmetry. unfold _call_invokes_pip.
  destruct (Py.contains _ _); [reflexivity|].
  replace (existsb _ _ && Py.mem "install" _) with true; [reflexivity|].
  symmetry. apply andb_true_iff. split.
  - apply existsb_exists. exists (Py.lower pip). split; [|assumption].
    apply in_map. assumption.
  - apply mem_In. rewrite <- Hlow. apply in_map. assumption.
Qed.

Lemma pip_install_call_reported_witness :
  Re.found (Re.match_ PIP_ARGS_RE (Py.lower "PIP")) = true
  /\ In (mkIssue "HIGH" "Invokes pip install at runtime. (line 2)")
        [mkIssue "MEDIUM" "Imports risky module 'subprocess'. (line 1)";
         mkIssue "MEDIUM" "Uses subprocess.run() to execute a process. (line 2)";
         mkIssue "HIGH" "Invokes pip install at runtime. (line 2)";
         mkIssue "MEDIUM" "Uses subprocess to execute a process. (line 2)"].
Proof.
  split; [vm_compute; reflexivity|].
  refine (pip_install_call_reported pip_by_list
            ("import subprocess" +:+ Samples.nl
             +:+ "subprocess.run(['PIP', 'install', 'evil'])" +:+ Samples.nl)
            "/nodes/node.py" _
            (Ast.Other
               [Ast.Import ["subprocess"] 1;
                Ast.Other [Ast.Call (Ast.Attribute (Ast.Name "subprocess") "run")
                             [Ast.List_ [Ast.Constant (Ast.Str "PIP");
                                         Ast.Constant (Ast.Str "install");
                                         Ast.Constant (Ast.Str "evil")]] [] 2]])
            (Ast.Attribute (Ast.Name "subprocess") "run")
            [Ast.List_ [Ast.Constant (Ast.Str "PIP");
                        Ast.Constant (Ast.Str "install");
                        Ast.Constant (Ast.Str "evil")]] [] 2%Z
            "PIP" "install" _ _ _ _ _ _ _ _).
  - vm_compute; reflexivity.
  - reflexivity.
  - in_computed_list.
  - in_computed_list.
  - in_computed_list.
  - in_computed_list.
  - vm_compute; reflexivity.
  - reflexivity.
Defined.

Lemma line_match_reported h source path found (k : nat) line sev msg :
  _static_scan h source path = Ok found ->
  Py.splitlines source !! k = Some line ->
  In (sev, msg) (line_matches line) ->
  In (mkIssue sev (with_line msg (Some (1 + Z.of_nat k)%Z))) found.
Proof.
  intros H Hk Hm. apply (static_scan_In _ _ _ _ _ H).
  apply in_map_iff. exists (sev, msg, Some (1 + Z.of_nat k)%Z).
  split; [reflexivity|].
  unfold static_findings. apply in_or_app. right.
  apply lines_findings_In. exists k, line. split; [assumption|].
  unfold line_findings. apply in_map_iff. exists (sev, msg). auto.
Qed.

(** X6: whatever the parser makes of the source, every line check that
    matches a line of the raw text is reported with the number of that
    line, counted from one: the pip-install string, the base64-like
    blob, each malicious indicator, each dangerous call pattern, and, on
    lines that mention [requests.] or [urllib], the first URL and the
    first IPv4 address of the line. *)
Theorem line_checks_reported h source path found (k : nat) line :
  _static_scan h source path = Ok found ->
  Py.splitlines source !! k = Some line ->
  let reported sev msg :=
    In (mkIssue sev (with_line msg (Some (1 + Z.of_nat k)%Z))) found in
  (Re.found (Re.search PIP_INSTALL_RE line) = true ->
   reported "HIGH" "Contains 'pip install' invocation string.")
  /\ (Re.found (Re.search BASE64_RE line) = true ->
      reported "MEDIUM" "Large base64-like string found (possible obfuscation).")
  /\ (forall pattern sev msg,
        In (pattern, sev, msg) MALICIOUS_INDICATORS ->
        Re.found (Re.search pattern line) = true -> reported sev msg)
  /\ (forall pattern sev msg,
        In (pattern, (sev, msg)) DANGEROUS_LINE_PATTERNS ->
        Re.found (Re.search pattern line) = true -> reported sev msg)
  /\ (Py.contains "requests." line || Py.contains "urllib" line = true ->
      (forall m, Re.search URL_RE line = Some m ->
         reported "MEDIUM"
           ("Hard-coded URL in network call: " +:+ Re.group0 m +:+ "."))
      /\ (forall m, Re.search IP_RE line = Some m ->
            reported "MEDIUM"
              ("Hard-coded IP in network call: " +:+ Re.group0 m +:+ "."))).
Proof.
  intros H Hk reported.
  assert (Hrep : forall sev msg, In (sev, msg) (line_matches line) ->
                                 reported sev msg).
  { intros sev msg Hm. exact (line_match_reported _ _ _ _ _ _ _ _ H Hk Hm). }
  unfold line_matches in Hrep.
  split; [|split; [|split; [|split]]].
  - intros Hm. apply Hrep. rewrite Hm. apply in_or_app. left. left. reflexivity.
  - intros Hm. apply Hrep. rewrite Hm.
    apply in_or_app. right. apply in_or_app. left. left. reflexivity.
  - intros pattern sev msg He Hm. apply Hrep.
    do 3 (apply in_or_app; right). apply in_or_app. left.
    apply in_flat_map. exists (pattern, sev, msg). split; [assumption|].
    rewrite Hm. left. reflexivity.
  - intros pattern sev msg He Hm. apply Hrep.
    do 5 (apply in_or_app; right).
    apply in_flat_map. exists (pattern, (sev, msg)). split; [assumption|].
    rewrite Hm. left. reflexivity.
  - intros Hnet. split; intros m Hm; apply Hrep;
      do 4 (apply in_or_app; right); apply in_or_app; left; rewrite Hnet, Hm.
    + apply in_or_app. left. left. reflexivity.
    + apply in_or_app. right. left. reflexivity.
Qed.

Lemma line_checks_reported_witness :
  Py.splitlines ("def f(: eval(x)" +:+ Samples.nl) !! 0%nat = Some "def f(: eval(x)"
  /\ In (mkIssue "HIGH" "Uses eval() for dynamic code execution. (line 1)")
        [mkIssue "MEDIUM" "Failed to parse Python AST: invalid syntax (line 1)";
         mkIssue "HIGH" "Uses eval() for dynamic code execution. (line 1)"].
Proof.
  split; [reflexivity|].
  refine (proj1 (proj2 (proj2 (proj2
            (line_checks_reported Samples.broken_def
               ("def f(: eval(x)" +:+ Samples.nl) "/nodes/node.py" _
               0%nat "def f(: eval(x)" _ _))))
            (call_pattern (Re.lit "eval")) "HIGH"
            "Uses eval() for dynamic code execution." _ _).
  - vm_compute; reflexivity.
  - reflexivity.
  - left. reflexivity.
  - vm_compute; reflexivity.
Defined.

(** X7: when the source parses, the issues of the tree walk come first,
    in the order of the walk; what the line checks add comes after them,
    and a line finding that the walk has already emitted is not listed
    again. *)
Theorem tree_walk_issues_first h source path found tree :
  _static_scan h source path = Ok found ->
  ast_parse h source path = Ast.Parsed tree ->
  exists tail,
    found = st_issues (tree_walk tree initial) ++ tail
    /\ (forall i, In i tail -> ~ In i (st_issues (tree_walk tree initial)))
    /\ (forall i, In i tail ->
          exists (k : nat) line,
            Py.splitlines source !! k = Some line
            /\ In i (List.map render (line_findings (1 + Z.of_nat k) line))).
Proof.
  intros H Hp.
  set (st1 := tree_walk tree initial).
  set (lf := lines_findings 1 (Py.splitlines source)).
  assert (Hc1 : consistent st1).
  { unfold st1. rewrite tree_walk_emit. apply emit_consistent, initial_consistent. }
  assert (Hfound : found = st_issues (emit lf st1)).
  { unfold _static_scan in H. rewrite Hp in H. injection H as <-.
    rewrite scan_lines_emit. reflexivity. }
  destruct (emit_extends lf st1) as [tail Htail].
  pose proof (emit_consistent lf st1 Hc1) as [Hnd _]. rewrite Htail in Hnd.
  apply NoDup_app in Hnd. destruct Hnd as (_ & Hdisj & _).
  exists tail. split; [congruence|]. split.
  - intros i Hi Hi1. apply (Hdisj i); apply list_elem_of_In; assumption.
  - intros i Hi.
    assert (Hin : In i (st_issues (emit lf st1))).
    { rewrite Htail. apply in_or_app. right. assumption. }
    apply (emit_In lf st1 i Hc1) in Hin. destruct Hin as [Hi1|Hl].
    + exfalso. apply (Hdisj i); apply list_elem_of_In; assumption.
    + apply in_map_iff in Hl. destruct Hl as (f & <- & Hf).
      apply lines_findings_In in Hf. destruct Hf as (k & line & Hk & Hf).
      exists k, line. split; [assumption|]. apply in_map. assumption.
Qed.

Lemma tree_walk_issues_first_witness :
  exists tail,
    [mkIssue "LOW" "Imports risky module 'requests'. (line 1)";
     mkIssue "MEDIUM" "Network call via 'requests.get'. (line 2)";
     mkIssue "MEDIUM"
       "Network call target appears in code: http://10.0.0.5/x. (line 2)";
     mkIssue "MEDIUM" "Hard-coded URL in network call: http://10.0.0.5/x. (line 2)";
     mkIssue "MEDIUM" "Hard-coded IP in network call: 10.0.0.5. (line 2)"]
    = [mkIssue "LOW" "Imports risky module 'requests'. (line 1)";
       mkIssue "MEDIUM" "Network call via 'requests.get'. (line 2)";
       mkIssue "MEDIUM"
         "Network call target appears in code: http://10.0.0.5/x. (line 2)"]
      ++ tail.
Proof.
  destruct (tree_walk_issues_first fetch_literal
              ("import requests" +:+ Samples.nl
               +:+ "requests.get('http://10.0.0.5/x')" +:+ Samples.nl)
              "/nodes/node.py"
              [mkIssue "LOW" "Imports risky module 'requests'. (line 1)";
               mkIssue "MEDIUM" "Network call via 'requests.get'. (line 2)";
               mkIssue "MEDIUM"
                 "Network call target appears in code: http://10.0.0.5/x. (line 2)";
               mkIssue "MEDIUM"
                 "Hard-coded URL in network call: http://10.0.0.5/x. (line 2)";
               mkIssue "MEDIUM" "Hard-coded IP in network call: 10.0.0.5. (line 2)"]
              (Ast.Other
                 [Ast.Import ["requests"] 1;
                  Ast.Other [Ast.Call (Ast.Attribute (Ast.Name "requests") "get")
                               [Ast.Constant (Ast.Str "http://10.0.0.5/x")] [] 2]]))
    as (tail & Hfound & _).
  - vm_compute; reflexivity.
  - reflexivity.
  - exists tail. rewrite Hfound. f_equal.
Defined.

Lemma add_issue_seen_grows s d l st key :
  key ∈ st_seen st -> key ∈ st_seen (add_issue s d l st).
Proof.
  intros Hk. unfold add_issue. case_bool_decide; simpl; [assumption|].
  set_solver.
Qed.

Lemma emit_seen_grows fs st key :
  key ∈ st_seen st -> key ∈ st_seen (emit fs st).
Proof.
  revert st. induction fs as [|[[s d] l] fs IH]; intros st Hk; simpl.
  - assumption.
  - apply IH, add_issue_seen_grows, Hk.
Qed.

(** X8: once an issue has been added, adding it again changes nothing,
    whatever has been added in between: the first occurrence keeps its
    place and no second one is listed. *)
Theorem add_issue_again_changes_nothing s d l fs st :
  add_issue s d l (emit fs (add_issue s d l st)) = emit fs (add_issue s d l st).
Proof.
  apply add_issue_seen, emit_seen_grows.
  unfold add_issue. case_bool_decide; simpl; [assumption | set_solver].
Qed.

Lemma append_assoc (a b c : string) : (a +:+ b) +:+ c = a +:+ (b +:+ c).
Proof.
  induction a as [|x a IH]; [reflexivity|].
  change (String x ((a +:+ b) +:+ c) = String x (a +:+ (b +:+ c))).
  rewrite IH. reflexivity.
Qed.

Lemma join_snoc l a b :
  Py.join "." ((a :: l) ++ [b]) = Py.join "." (a :: l) +:+ "." +:+ b.
Proof.
  unfold Py.join. revert a. induction l as [|x l IH]; intros a.
  - reflexivity.
  - change (String.concat "." ((a :: x :: l) ++ [b]))
      with (a +:+ "." +:+ String.concat "." ((x :: l) ++ [b])).
    rewrite IH.
    change (String.concat "." (a :: x :: l))
      with (a +:+ "." +:+ String.concat "." (x :: l)).
    rewrite !append_assoc. reflexivity.
Qed.

Lemma join_nonempty a l : a <> "" -> Py.join "." (a :: l) <> "".
Proof.
  intros Ha. unfold Py.join. destruct l as [|x l]; simpl; [assumption|].
  destruct a; [contradiction | discriminate].
Qed.

(** X9: when an expression resolves to a non-empty name, an attribute
    chain on top of it resolves to that name followed by the attribute
    names, joined by dots. *)
Theorem full_name_of_attribute_chain base attrs :
  _full_name base <> "" ->
  _full_name (attribute_chain base attrs)
  = Py.join "." (_full_name base :: attrs).
Proof.
  intros Hbase. unfold attribute_chain.
  induction attrs as [|a attrs IH] using rev_ind.
  - reflexivity.
  - rewrite fold_left_app. simpl. rewrite IH.
    replace (nonempty (Py.join "." (_full_name base :: attrs))) with true.
    + symmetry. apply (join_snoc attrs (_full_name base) a).
    + symmetry. unfold nonempty. apply negb_true_iff, String.eqb_neq.
      apply join_nonempty, Hbase.
Qed.

Lemma full_name_of_attribute_chain_witness :
  _full_name (Ast.Name "urllib") <> ""
  /\ _full_name (Ast.Attribute (Ast.Attribute (Ast.Name "urllib") "request")
                               "urlopen")
     = "urllib.request.urlopen".
Proof.
  split; [discriminate|].
  exact (full_name_of_attribute_chain (Ast.Name "urllib") ["request"; "urlopen"]
           ltac:(discriminate)).
Defined.

End MoreStatic.

(** * Further properties of the orchestrator *)

Module MoreScan.
Import Sandbox More.

(** X15: the [file] of every returned result is the absolute path of the
    path given, on each of the three ways the scan returns. *)
Theorem result_file_is_abspath h r node_path t res :
  scan_custom_node h r node_path = (t, Ok res) ->
  file res = abspath h node_path.
Proof.
  intros H. apply scan_custom_node_cases in H.
  destruct H as [(_ & _ & ->)|[(exc & _ & _ & _ & ->)|
                 (source & found & _ & _ & _ & _ & ->)]]; reflexivity.
Qed.

Lemma result_file_is_abspath_witness :
  scan_custom_node Samples.import_socket Samples.run_a "missing.py"
  = ([], Ok (mkScanResult "/nodes/missing.py"
               [mkIssue "HIGH" "Node path does not exist or is not a file."] false))
  /\ file (mkScanResult "/nodes/missing.py"
             [mkIssue "HIGH" "Node path does not exist or is not a file."] false)
     = abspath Samples.import_socket "missing.py".
Proof.
  split; [reflexivity|].
  apply (result_file_is_abspath Samples.import_socket Samples.run_a "missing.py" []).
  reflexivity.
Defined.

(** X16: when the file exists and reading it raises OSError, the scan
    returns one HIGH issue that quotes the error, with [secure = false],
    and invokes no engine. *)
Theorem unreadable_file_single_high_issue h r node_path exc :
  isfile h (abspath h node_path) = true ->
  read_text h (abspath h node_path) = ReadOSError exc ->
  scan_custom_node h r node_path
  = ([], Ok (mkScanResult (abspath h node_path)
               [mkIssue "HIGH" ("Failed to read file: " +:+ exc)] false)).
Proof.
  intros Hfile Hread. unfold scan_custom_node. rewrite Hfile, Hread. reflexivity.
Qed.

Lemma unreadable_file_single_high_issue_witness :
  isfile unreadable (abspath unreadable "node.py") = true
  /\ scan_custom_node unreadable Samples.run_a "node.py"
     = ([], Ok (mkScanResult "/nodes/node.py"
                  [mkIssue "HIGH"
                     "Failed to read file: [Errno 13] Permission denied: '/nodes/node.py'"]
                  false)).
Proof.
  split; [reflexivity|].
  exact (unreadable_file_single_high_issue unreadable Samples.run_a "node.py"
           "[Errno 13] Permission denied: '/nodes/node.py'" eq_refl eq_refl).
Defined.

(** X17: when the file exists and is read, and the parser raises an
    exception other than SyntaxError, the static scan does not catch it
    and the scan raises it: the linter has run before, and the sandbox
    is never started. *)
Theorem parser_exception_escapes_scan h r node_path source exc :
  isfile h (abspath h node_path) = true ->
  read_text h (abspath h node_path) = ReadOk source ->
  ast_parse h source (abspath h node_path) = Ast.ParseRaised exc ->
  scan_custom_node h r node_path = ([Linter; StaticRules], Raised exc).
Proof.
  intros Hfile Hread Hp. unfold scan_custom_node. rewrite Hfile, Hread. simpl.
  unfold Static._static_scan. rewrite Hp. reflexivity.
Qed.

Lemma parser_exception_escapes_scan_witness :
  ast_parse null_byte_value_error
    ("x = 1" +:+ String "000" EmptyString +:+ Samples.nl)
    (abspath null_byte_value_error "node.py")
  = Ast.ParseRaised "source code string cannot contain null bytes"
  /\ scan_custom_node null_byte_value_error Samples.run_a "node.py"
     = ([Linter; StaticRules],
        Raised "source code string cannot contain null bytes").
Proof.
  split; [reflexivity|].
  exact (parser_exception_escapes_scan null_byte_value_error Samples.run_a
           "node.py" ("x = 1" +:+ String "000" EmptyString +:+ Samples.nl)
           "source code string cannot contain null bytes"
           eq_refl eq_refl eq_refl).
Defined.

(** X18: a scan whose worker is still alive once the budget is over
    never returns a secure verdict. *)
Theorem timed_out_scan_is_insecure h r node_path t res :
  Dynamic.is_alive (Dynamic._dynamic_import_worker h r (abspath h node_path)) = true ->
  scan_custom_node h r node_path = (t, Ok res) ->
  secure res = false.
Proof.
  intros Halive H.
  apply scan_custom_node_cases in H.
  destruct H as [(_ & _ & ->)|[(exc & _ & _ & _ & ->)|
                 (source & found & _ & _ & _ & _ & ->)]]; try reflexivity.
  simpl. apply negb_false_iff, existsb_exists.
  exists Dynamic.TIMED_OUT. split; [|reflexivity].
  rewrite !in_app_iff. right. right.
  rewrite DynamicClaims.run_dynamic_analysis_eq, Halive. left. reflexivity.
Qed.

Lemma timed_out_scan_is_insecure_witness :
  Dynamic.is_alive
    (Dynamic._dynamic_import_worker Samples.spin Samples.run_a
       (abspath Samples.spin "node.py")) = true
  /\ exists res,
       scan_custom_node Samples.spin Samples.run_a "node.py"
       = ([Linter; StaticRules; SandboxRuntime], Ok res)
       /\ secure res = false.
Proof.
  split; [vm_compute; reflexivity|].
  eexists. split; [vm_compute; reflexivity|].
  eapply (timed_out_scan_is_insecure Samples.spin Samples.run_a "node.py").
  - vm_compute; reflexivity.
  - vm_compute; reflexivity.
Defined.

(** X19: when no module spec is found for the file, the dynamic analysis
    yields the single MEDIUM issue that says so, and the scan never
    returns a secure verdict. *)
Theorem file_without_spec_is_insecure h r node_path t res :
  module_at h (abspath h node_path) = None ->
  scan_custom_node h r node_path = (t, Ok res) ->
  Dynamic._run_dynamic_analysis h r (abspath h node_path) = [Dynamic.NO_SPEC]
  /\ secure res = false.
Proof.
  intros Hmod H.
  assert (Hdyn : Dynamic._run_dynamic_analysis h r (abspath h node_path)
                 = [Dynamic.NO_SPEC]).
  { rewrite DynamicClaims.run_dynamic_analysis_eq.
    unfold Dynamic._dynamic_import_worker. rewrite Hmod. reflexivity. }
  split; [exact Hdyn|].
  apply scan_custom_node_cases in H.
  destruct H as [(_ & _ & ->)|[(exc & _ & _ & _ & ->)|
                 (source & found & _ & _ & _ & _ & ->)]]; try reflexivity.
  simpl. apply negb_false_iff, existsb_exists.
  exists Dynamic.NO_SPEC. split; [|reflexivity].
  rewrite !in_app_iff, Hdyn. right. right. left. reflexivity.
Qed.

Lemma file_without_spec_is_insecure_witness :
  module_at no_spec (abspath no_spec "node.py") = None
  /\ scan_custom_node no_spec Samples.run_a "node.py"
     = ([Linter; StaticRules; SandboxRuntime],
        Ok (mkScanResult "/nodes/node.py"
              [mkIssue "LOW" "Bandit scan skipped: No module named 'bandit'";
               mkIssue "MEDIUM" "Dynamic analysis failed: unable to load module spec."]
              false))
  /\ secure (mkScanResult "/nodes/node.py"
              [mkIssue "LOW" "Bandit scan skipped: No module named 'bandit'";
               mkIssue "MEDIUM" "Dynamic analysis failed: unable to load module spec."]
              false) = false.
Proof.
  split; [reflexivity|]. split; [vm_compute; reflexivity|].
  refine (proj2 (file_without_spec_is_insecure no_spec Samples.run_a "node.py"
                   [Linter; StaticRules; SandboxRuntime] _ eq_refl _)).
  vm_compute; reflexivity.
Defined.

(** X20: a file whose tree holds, anywhere, a call that resolves to a
    key of DANGEROUS_CALLS never gets a secure verdict. *)
Theorem dangerous_call_makes_scan_insecure h r node_path t res source tree
    func args keywords lineno :
  read_text h (abspath h node_path) = ReadOk source ->
  ast_parse h source (abspath h node_path) = Ast.Parsed tree ->
  In (Ast.Call func args keywords lineno) (Ast.walk tree) ->
  is_Some (DANGEROUS_CALLS !! Static._full_name func) ->
  scan_custom_node h r node_path = (t, Ok res) ->
  secure res = false.
Proof.
  intros Hread Hp Hn [[sev msg] Hd] H.
  apply scan_custom_node_cases in H.
  destruct H as [(_ & _ & ->)|[(exc & _ & _ & _ & ->)|
                 (source' & found & _ & Hread' & Hst & _ & ->)]]; try reflexivity.
  assert (source' = source) as -> by congruence.
  simpl. apply negb_false_iff, existsb_exists.
  exists (mkIssue sev (Static.with_line msg (Some lineno))). split.
  - rewrite !in_app_iff. right. left.
    apply (MoreStatic.tree_finding_reported _ _ _ _ _ _ (sev, msg, Some lineno)
             Hst Hp Hn).
    unfold Findings.visit_findings. rewrite Hd.
    apply in_or_app. left. left. reflexivity.
  - apply is_high_or_medium_spec. simpl.
    destruct (MoreStatic.dangerous_severity _ _ _ Hd); auto.
Qed.

Lemma dangerous_call_makes_scan_insecure_witness :
  is_Some (DANGEROUS_CALLS
             !! Static._full_name (Ast.Attribute (Ast.Name "subprocess") "run"))
  /\ exists res,
       scan_custom_node pip_by_list Samples.run_a "node.py"
       = ([Linter; StaticRules; SandboxRuntime], Ok res)
       /\ secure res = false.
Proof.
  split; [vm_compute; eexists; reflexivity|].
  eexists. split; [vm_compute; reflexivity|].
  eapply (dangerous_call_makes_scan_insecure pip_by_list Samples.run_a "node.py"
            _ _ _ _ (Ast.Attribute (Ast.Name "subprocess") "run")
            [Ast.List_ [Ast.Constant (Ast.Str "PIP");
                        Ast.Constant (Ast.Str "install");
                        Ast.Constant (Ast.Str "evil")]] [] 2%Z).
  - reflexivity.
  - reflexivity.
  - MoreStatic.in_computed_list.
  - vm_compute. eexists; reflexivity.
  - vm_compute; reflexivity.
Defined.

(** X21: when bandit cannot be imported, the result starts with the one
    LOW notice of the linter adapter, and the verdict is the one the
    issues of the static rule engine and of the sandbox give. *)
Theorem missing_linter_leaves_verdict h r node_path t res source exc :
  isfile h (abspath h node_path) = true ->
  read_text h (abspath h node_path) = ReadOk source ->
  bandit h (abspath h node_path) = BanditImportFails exc ->
  scan_custom_node h r node_path = (t, Ok res) ->
  exists static_found,
    Static._static_scan h source (abspath h node_path) = Ok static_found
    /\ issues res
       = mkIssue "LOW" ("Bandit scan skipped: " +:+ exc)
         :: static_found
            ++ Dynamic._run_dynamic_analysis h r (abspath h node_path)
    /\ secure res
       = negb (existsb is_high_or_medium
                 (static_found
                  ++ Dynamic._run_dynamic_analysis h r (abspath h node_path))).
Proof.
  intros Hfile Hread Hb H. apply scan_custom_node_cases in H.
  destruct H as [(Hf & _)|[(e & _ & Hr & _)|
                 (source' & found & _ & Hr & Hst & _ & ->)]]; try congruence.
  assert (source' = source) as -> by congruence.
  exists found. split; [assumption|].
  unfold _run_bandit. rewrite Hb. simpl. split; reflexivity.
Qed.

Lemma missing_linter_leaves_verdict_witness :
  bandit Samples.import_socket (abspath Samples.import_socket "node.py")
  = BanditImportFails "No module named 'bandit'"
  /\ exists res static_found,
       scan_custom_node Samples.import_socket Samples.run_a "node.py"
       = ([Linter; StaticRules; SandboxRuntime], Ok res)
       /\ Static._static_scan Samples.import_socket ("import socket" +:+ Samples.nl)
            (abspath Samples.import_socket "node.py") = Ok static_found
       /\ issues res
          = mkIssue "LOW" "Bandit scan skipped: No module named 'bandit'"
            :: static_found
               ++ Dynamic._run_dynamic_analysis Samples.import_socket Samples.run_a
                    (abspath Samples.import_socket "node.py").
Proof.
  split; [reflexivity|].
  destruct (missing_linter_leaves_verdict Samples.import_socket Samples.run_a
              "node.py" [Linter; StaticRules; SandboxRuntime]
              (mkScanResult "/nodes/node.py"
                 [mkIssue "LOW" "Bandit scan skipped: No module named 'bandit'";
                  mkIssue "MEDIUM" "Imports risky module 'socket'. (line 1)"] false)
              ("import socket" +:+ Samples.nl) "No module named 'bandit'")
    as (static_found & Hst & Hissues & _).
  - reflexivity.
  - reflexivity.
  - reflexivity.
  - vm_compute; reflexivity.
  - eexists _, static_found. split; [vm_compute; reflexivity|].
    split; [exact Hst | exact Hissues].
Defined.

End MoreScan.
